(** * Face-recognition attendance backend

    A shallow embedding of [backend/server.py]: the pydantic models become
    records, the two MongoDB collections become lists in insertion order, every
    [await db....] becomes one atomic storage operation of a small program
    type, and the values the handlers read from their surroundings
    ([uuid.uuid4()], [datetime.utcnow()], [datetime.now()]) are passed in
    explicitly, one argument per read. *)

From Stdlib Require Import List String Ascii Bool ZArith Lia.
From Stdlib Require Import Permutation Sorted.
From Stdlib Require Import Floats Uint63.
From Stdlib Require Import Reals Lra.
Import ListNotations.

Local Open Scope string_scope.
Local Open Scope Z_scope.

(** ** Naive datetimes *)

(** A Python [datetime] without tzinfo: its seven integer fields. *)
Record datetime : Type := mkDatetime {
  year : Z;
  month : Z;
  day : Z;
  hour : Z;
  minute : Z;
  second : Z;
  microsecond : Z
}.

Definition is_leap (y : Z) : bool :=
  ((y mod 4 =? 0) && negb (y mod 100 =? 0)) || (y mod 400 =? 0).

Definition days_in_month (y m : Z) : Z :=
  if m =? 2 then (if is_leap y then 29 else 28)
  else if (m =? 4) || (m =? 6) || (m =? 9) || (m =? 11) then 30
  else 31.

(** The ranges the [datetime] constructor enforces (MINYEAR = 1,
    MAXYEAR = 9999). *)
Definition valid_datetime (t : datetime) : bool :=
  (1 <=? year t) && (year t <=? 9999) &&
  (1 <=? month t) && (month t <=? 12) &&
  (1 <=? day t) && (day t <=? days_in_month (year t) (month t)) &&
  (0 <=? hour t) && (hour t <? 24) &&
  (0 <=? minute t) && (minute t <? 60) &&
  (0 <=? second t) && (second t <? 60) &&
  (0 <=? microsecond t) && (microsecond t <? 1000000).

(** Comparison of Python tuples of integers. *)
Fixpoint tuple_compare (a b : list Z) : comparison :=
  match a, b with
  | [], [] => Eq
  | [], _ :: _ => Lt
  | _ :: _, [] => Gt
  | x :: a', y :: b' =>
      match x ?= y with
      | Eq => tuple_compare a' b'
      | c => c
      end
  end.

Definition tuple_leb (a b : list Z) : bool :=
  match tuple_compare a b with
  | Gt => false
  | _ => true
  end.

(** Naive datetimes compare field by field, most significant first. *)
Definition timetuple (t : datetime) : list Z :=
  [year t; month t; day t; hour t; minute t; second t; microsecond t].

Definition datetime_leb (a b : datetime) : bool :=
  tuple_leb (timetuple a) (timetuple b).

(** The calendar day a datetime falls on. *)
Definition calendar_day (t : datetime) : list Z :=
  [year t; month t; day t].

Definition day_leb (a b : datetime) : bool :=
  tuple_leb (calendar_day a) (calendar_day b).

(** [strftime("%Y-%m-%d")]: zero-padded decimal fields, four digits for the
    year and two for the month and for the day. *)
Definition digit (n : Z) : ascii := ascii_of_N (Z.to_N (48 + n mod 10)).

Definition pad2 (n : Z) : string :=
  String (digit (n / 10)) (String (digit n) EmptyString).

Definition pad4 (n : Z) : string :=
  String (digit (n / 1000)) (String (digit (n / 100)) (pad2 n)).

Definition strftime_Ymd (t : datetime) : string :=
  (pad4 (year t) ++ "-" ++ pad2 (month t) ++ "-" ++ pad2 (day t))%string.

(** ** Models *)

Module Person.
Record t : Type := mk {
  id : string;
  name : string;
  employee_id : string;
  face_descriptor : string;
  photo : string;
  role : string;
  created_at : datetime
}.
End Person.
Abbreviation Person := Person.t.

Module PersonCreate.
Record t : Type := mk {
  name : string;
  employee_id : string;
  face_descriptor : string;
  photo : string;
  role : string
}.
End PersonCreate.
Abbreviation PersonCreate := PersonCreate.t.

Module AttendanceRecord.
Record t : Type := mk {
  id : string;
  person_id : string;
  person_name : string;
  employee_id : string;
  timestamp : datetime;
  date : string;
  confidence : float;
  photo : option string
}.
End AttendanceRecord.
Abbreviation AttendanceRecord := AttendanceRecord.t.

Module AttendanceCreate.
Record t : Type := mk {
  person_id : string;
  person_name : string;
  employee_id : string;
  confidence : float;
  photo : option string
}.
End AttendanceCreate.
Abbreviation AttendanceCreate := AttendanceCreate.t.

Module AttendanceStats.
Record t : Type := mk {
  total_registered : Z;
  present_today : Z;
  absent_today : Z;
  attendance_rate : float
}.
End AttendanceStats.
Abbreviation AttendanceStats := AttendanceStats.t.

(** Building a [Person] from the request's fields: the two default factories
    run once each;
    their results are the arguments [uuid4] and [utcnow]. *)
Definition new_Person (uuid4 : string) (utcnow : datetime)
    (person_data : PersonCreate) : Person :=
  {| Person.id := uuid4;
     Person.name := PersonCreate.name person_data;
     Person.employee_id := PersonCreate.employee_id person_data;
     Person.face_descriptor := PersonCreate.face_descriptor person_data;
     Person.photo := PersonCreate.photo person_data;
     Person.role := PersonCreate.role person_data;
     Person.created_at := utcnow |}.

(** Building an [AttendanceRecord] from the request's fields: three default
    factories,
    [uuid4()] for [id], [datetime.utcnow()] for [timestamp] and
    [datetime.now().strftime("%Y-%m-%d")] for [date]. *)
Definition new_AttendanceRecord (uuid4 : string) (utcnow now : datetime)
    (attendance_data : AttendanceCreate) : AttendanceRecord :=
  {| AttendanceRecord.id := uuid4;
     AttendanceRecord.person_id := AttendanceCreate.person_id attendance_data;
     AttendanceRecord.person_name := AttendanceCreate.person_name attendance_data;
     AttendanceRecord.employee_id := AttendanceCreate.employee_id attendance_data;
     AttendanceRecord.timestamp := utcnow;
     AttendanceRecord.date := strftime_Ymd now;
     AttendanceRecord.confidence := AttendanceCreate.confidence attendance_data;
     AttendanceRecord.photo := AttendanceCreate.photo attendance_data |}.

(** ** Storage *)

(** The database [db]: the collections [db.persons] and [db.attendance], each
    a list of documents in insertion order. *)
Record Store : Type := mkStore {
  persons : list Person;
  attendance : list AttendanceRecord
}.

Definition empty_db : Store := mkStore [] [].

(** The storage calls the handlers make.  A query document is the predicate it
    denotes on the documents of its collection. *)
Inductive DbOp : Type -> Type :=
| persons_find_one (q : Person -> bool) : DbOp (option Person)
| persons_insert_one (p : Person) : DbOp unit
| persons_find (q : Person -> bool) (to_list : nat) : DbOp (list Person)
| persons_delete_one (q : Person -> bool) : DbOp Z
| persons_count_documents (q : Person -> bool) : DbOp Z
| attendance_find_one (q : AttendanceRecord -> bool)
    : DbOp (option AttendanceRecord)
| attendance_insert_one (r : AttendanceRecord) : DbOp unit
| attendance_find (q : AttendanceRecord -> bool) (to_list : nat)
    : DbOp (list AttendanceRecord)
| attendance_find_sort_timestamp_desc (q : AttendanceRecord -> bool)
    (to_list : nat) : DbOp (list AttendanceRecord)
| attendance_delete_many (q : AttendanceRecord -> bool) : DbOp Z
| attendance_count_documents (q : AttendanceRecord -> bool) : DbOp Z.

(** [delete_one]: the first matching document goes. *)
Fixpoint remove_first {A : Type} (q : A -> bool) (l : list A) : list A :=
  match l with
  | [] => []
  | x :: l' => if q x then l' else x :: remove_first q l'
  end.

(** [sort("timestamp", -1)]: descending, as an insertion sort that keeps
    documents of equal timestamp in their stored order. *)
Fixpoint insert_desc (r : AttendanceRecord) (l : list AttendanceRecord)
    : list AttendanceRecord :=
  match l with
  | [] => [r]
  | x :: l' =>
      if datetime_leb (AttendanceRecord.timestamp x) (AttendanceRecord.timestamp r)
      then r :: x :: l'
      else x :: insert_desc r l'
  end.

Fixpoint sort_timestamp_desc (l : list AttendanceRecord)
    : list AttendanceRecord :=
  match l with
  | [] => []
  | r :: l' => insert_desc r (sort_timestamp_desc l')
  end.

Definition count {A : Type} (q : A -> bool) (l : list A) : Z :=
  Z.of_nat (List.length (filter q l)).

(** A datetime as BSON keeps it: whole milliseconds.  An insert encodes the
    document, so what the collection holds, and every later read returns,
    has its datetimes cut to the millisecond. *)
Definition bson_datetime (t : datetime) : datetime :=
  {| year := year t;
     month := month t;
     day := day t;
     hour := hour t;
     minute := minute t;
     second := second t;
     microsecond := microsecond t / 1000 * 1000 |}.

Definition bson_person (p : Person) : Person :=
  {| Person.id := Person.id p;
     Person.name := Person.name p;
     Person.employee_id := Person.employee_id p;
     Person.face_descriptor := Person.face_descriptor p;
     Person.photo := Person.photo p;
     Person.role := Person.role p;
     Person.created_at := bson_datetime (Person.created_at p) |}.

Definition bson_record (r : AttendanceRecord) : AttendanceRecord :=
  {| AttendanceRecord.id := AttendanceRecord.id r;
     AttendanceRecord.person_id := AttendanceRecord.person_id r;
     AttendanceRecord.person_name := AttendanceRecord.person_name r;
     AttendanceRecord.employee_id := AttendanceRecord.employee_id r;
     AttendanceRecord.timestamp := bson_datetime (AttendanceRecord.timestamp r);
     AttendanceRecord.date := AttendanceRecord.date r;
     AttendanceRecord.confidence := AttendanceRecord.confidence r;
     AttendanceRecord.photo := AttendanceRecord.photo r |}.

(** What a storage call answers on a given database, and the database it
    leaves. *)
Definition exec {R : Type} (op : DbOp R) (db : Store) : R * Store :=
  match op in DbOp R return R * Store with
  | persons_find_one q => (find q (persons db), db)
  | persons_insert_one p =>
      (tt, mkStore (persons db ++ [bson_person p])%list (attendance db))
  | persons_find q n => (firstn n (filter q (persons db)), db)
  | persons_delete_one q =>
      (Z.min 1 (count q (persons db)),
       mkStore (remove_first q (persons db)) (attendance db))
  | persons_count_documents q => (count q (persons db), db)
  | attendance_find_one q => (find q (attendance db), db)
  | attendance_insert_one r =>
      (tt, mkStore (persons db) (attendance db ++ [bson_record r])%list)
  | attendance_find q n => (firstn n (filter q (attendance db)), db)
  | attendance_find_sort_timestamp_desc q n =>
      (firstn n (sort_timestamp_desc (filter q (attendance db))), db)
  | attendance_delete_many q =>
      (count q (attendance db),
       mkStore (persons db) (filter (fun r => negb (q r)) (attendance db)))
  | attendance_count_documents q => (count q (attendance db), db)
  end.

(** ** Handlers as programs over storage calls *)

(** What a handler can raise: an [HTTPException], or any other exception
    (identified by its [str()]). *)
Inductive Exc : Type :=
| HTTPException (status_code : Z) (detail : string)
| Exception (str : string).

(** What an awaited storage call comes back with. *)
Inductive Reply (R : Type) : Type :=
| Done (r : R)
| Failed (str : string).
Arguments Done {R} r.
Arguments Failed {R} str.

Inductive Prog (A : Type) : Type :=
| Return (a : A)
| Raise (e : Exc)
| Await {R : Type} (op : DbOp R) (k : Reply R -> Prog A).
Arguments Return {A} a.
Arguments Raise {A} e.
Arguments Await {A R} op k.

Fixpoint bind {A B : Type} (m : Prog A) (f : A -> Prog B) : Prog B :=
  match m with
  | Return a => f a
  | Raise e => Raise e
  | Await op k => Await op (fun r => bind (k r) f)
  end.

Notation "x <- m ;; k" := (bind m (fun x => k))
  (at level 61, m at next level, right associativity).

(** [await db.coll.op(...)]: the answer, or the exception storage raised. *)
Definition await {R : Type} (op : DbOp R) : Prog R :=
  Await op (fun r =>
    match r with
    | Done v => Return v
    | Failed s => Raise (Exception s)
    end).

(** [try: body  except ...: h]. *)
Fixpoint try_except {A : Type} (body : Prog A) (h : Exc -> Prog A) : Prog A :=
  match body with
  | Return a => Return a
  | Raise e => h e
  | Await op k => Await op (fun r => try_except (k r) h)
  end.

(** [except HTTPException: raise] followed by
    [except Exception as e: raise HTTPException(500, f"<prefix>{str(e)}")]. *)
Definition reraise_or_500 {A : Type} (prefix : string) (e : Exc) : Prog A :=
  match e with
  | HTTPException _ _ => Raise e
  | Exception s => Raise (HTTPException 500 (prefix ++ s)%string)
  end.

(** The handlers that have only [except Exception as e]: every exception
    becomes a 500 whose detail ends with its [str()].  (Their bodies raise no
    [HTTPException]; that case of [str_of] is never exercised.) *)
Definition str_of (e : Exc) : string :=
  match e with
  | HTTPException _ detail => detail
  | Exception s => s
  end.

Definition always_500 {A : Type} (prefix : string) (e : Exc) : Prog A :=
  Raise (HTTPException 500 (prefix ++ str_of e)%string).

(** Truth value of what [find_one] returns: [None] is false, a document is
    true. *)
Definition truthy {A : Type} (o : option A) : bool :=
  match o with
  | Some _ => true
  | None => false
  end.

(** The query documents of the handlers: [{"id": i}], [{"employee_id": e}],
    [{"person_id": i}], [{"date": d}], [{"person_id": i, "date": d}] and
    [{}]. *)
Definition has_id (i : string) (p : Person) : bool :=
  String.eqb (Person.id p) i.

Definition has_employee_id (e : string) (p : Person) : bool :=
  String.eqb (Person.employee_id p) e.

Definition of_person (i : string) (r : AttendanceRecord) : bool :=
  String.eqb (AttendanceRecord.person_id r) i.

Definition on_date (d : string) (r : AttendanceRecord) : bool :=
  String.eqb (AttendanceRecord.date r) d.

Definition of_person_on_date (i d : string) (r : AttendanceRecord) : bool :=
  of_person i r && on_date d r.

Definition any {A : Type} (x : A) : bool := true.

(** *** Person management *)

Definition create_person (uuid4 : string) (utcnow : datetime)
    (person_data : PersonCreate) : Prog Person :=
  try_except
    (existing_person <- await (persons_find_one
        (has_employee_id (PersonCreate.employee_id person_data))) ;;
     if truthy existing_person
     then Raise (HTTPException 400 "Employee ID already exists")
     else
       let person_obj := new_Person uuid4 utcnow person_data in
       _ <- await (persons_insert_one person_obj) ;;
       Return person_obj)
    (reraise_or_500 "Error creating person: ").

Definition get_all_persons : Prog (list Person) :=
  try_except
    (persons <- await (persons_find any 1000) ;;
     Return persons)
    (always_500 "Error fetching persons: ").

Definition get_person (person_id : string) : Prog Person :=
  try_except
    (person <- await (persons_find_one (has_id person_id)) ;;
     match person with
     | None => Raise (HTTPException 404 "Person not found")
     | Some p => Return p
     end)
    (reraise_or_500 "Error fetching person: ").

Definition delete_person (person_id : string) : Prog string :=
  try_except
    (deleted_count <- await (persons_delete_one (has_id person_id)) ;;
     if deleted_count =? 0
     then Raise (HTTPException 404 "Person not found")
     else
       _ <- await (attendance_delete_many (of_person person_id)) ;;
       Return "Person and their attendance records deleted successfully")
    (reraise_or_500 "Error deleting person: ").

(** *** Attendance *)

(** [now_today] is the [datetime.now()] of the duplicate check; [uuid4],
    [utcnow] and [now_date] are the three reads of the record's default
    factories. *)
Definition mark_attendance (now_today : datetime) (uuid4 : string)
    (utcnow now_date : datetime) (attendance_data : AttendanceCreate)
    : Prog AttendanceRecord :=
  try_except
    (person <- await (persons_find_one
        (has_id (AttendanceCreate.person_id attendance_data))) ;;
     if negb (truthy person)
     then Raise (HTTPException 404 "Person not found")
     else
       let today := strftime_Ymd now_today in
       existing_attendance <- await (attendance_find_one
           (of_person_on_date (AttendanceCreate.person_id attendance_data) today)) ;;
       if truthy existing_attendance
       then Raise (HTTPException 400 "Attendance already marked for today")
       else
         let attendance_obj :=
           new_AttendanceRecord uuid4 utcnow now_date attendance_data in
         _ <- await (attendance_insert_one attendance_obj) ;;
         Return attendance_obj)
    (reraise_or_500 "Error marking attendance: ").

Definition get_today_attendance (now : datetime)
    : Prog (list AttendanceRecord) :=
  try_except
    (let today := strftime_Ymd now in
     attendance_records <- await (attendance_find (on_date today) 1000) ;;
     Return attendance_records)
    (always_500 "Error fetching today's attendance: ").

(** *** Statistics *)

(** The two kinds of number the rate expression can evaluate to. *)
Inductive number : Type :=
| Int (n : Z)
| Float (x : float).

(** A count as a float (counts stay far below 2^53, where this is exact). *)
Definition float_of_int (n : Z) : float := PrimFloat.of_uint63 (Uint63.of_Z n).

(** [a / b] on integers is true division; the product with the integer
    [100] is a float product. *)
Definition truediv (a b : Z) : float :=
  (float_of_int a / float_of_int b)%float.

(** The nearest integer to [m * 100 * 2^e], ties to even: the hundredths of
    the float [m * 2^e], correctly rounded. *)
Definition nearest_hundredths (m e : Z) : Z :=
  if 0 <=? e then m * 100 * 2 ^ e
  else
    let d := 2 ^ (- e) in
    let q := (m * 100) / d in
    let r := (m * 100) mod d in
    if 2 * r <? d then q
    else if d <? 2 * r then q + 1
    else if Z.even q then q else q + 1.

(** [round(x, 2)] on a float: the double nearest to the decimal with two
    places that is nearest to [x] (ties to even); zeros, infinities and NaN
    come back as they are. *)
Definition float_round2 (x : float) : float :=
  match Prim2SF x with
  | S754_finite s m e =>
      let r := (float_of_int (nearest_hundredths (Z.pos m) e) / 100)%float in
      if s then (- r)%float else r
  | _ => x
  end.

(** [round(v, 2)]: an integer is returned as it is. *)
Definition round2 (v : number) : number :=
  match v with
  | Int n => Int n
  | Float x => Float (float_round2 x)
  end.

(** What the [float] field of a model makes of a number. *)
Definition as_float (v : number) : float :=
  match v with
  | Int n => float_of_int n
  | Float x => x
  end.

Definition get_attendance_stats (now : datetime) : Prog AttendanceStats :=
  try_except
    (let today := strftime_Ymd now in
     total_registered <- await (persons_count_documents any) ;;
     present_today <- await (attendance_count_documents (on_date today)) ;;
     let absent_today := Z.max 0 (total_registered - present_today) in
     let attendance_rate :=
       if total_registered >? 0
       then Float (truediv present_today total_registered * 100)%float
       else Int 0 in
     Return {| AttendanceStats.total_registered := total_registered;
               AttendanceStats.present_today := present_today;
               AttendanceStats.absent_today := absent_today;
               AttendanceStats.attendance_rate :=
                 as_float (round2 attendance_rate) |})
    (always_500 "Error fetching stats: ").

Definition get_person_attendance_history (person_id : string)
    : Prog (list AttendanceRecord) :=
  try_except
    (attendance_records <- await (attendance_find_sort_timestamp_desc
         (of_person person_id) 100) ;;
     Return attendance_records)
    (always_500 "Error fetching attendance history: ").

Definition get_attendance_by_date (date_str : string)
    : Prog (list AttendanceRecord) :=
  try_except
    (attendance_records <- await (attendance_find (on_date date_str) 1000) ;;
     Return attendance_records)
    (always_500 "Error fetching attendance for date: ").

(** ** Running a handler *)

Inductive Outcome (A : Type) : Type :=
| Returned (a : A)
| Raised (e : Exc).
Arguments Returned {A} a.
Arguments Raised {A} e.

(** One caller at a time on a storage that answers every call. *)
Fixpoint run {A : Type} (p : Prog A) (db : Store) : Outcome A * Store :=
  match p with
  | Return a => (Returned a, db)
  | Raise e => (Raised e, db)
  | Await op k => let (r, db') := exec op db in run (k (Done r)) db'
  end.

(** The same, on a storage whose calls may raise: [runs p db o db'] says that
    [p], started on [db], can end with [o] on [db'].  A call that raises
    leaves the database as it was. *)
Fixpoint runs {A : Type} (p : Prog A) (db : Store) (o : Outcome A)
    (db' : Store) : Prop :=
  match p with
  | Return a => o = Returned a /\ db' = db
  | Raise e => o = Raised e /\ db' = db
  | Await op k =>
      runs (k (Done (fst (exec op db)))) (snd (exec op db)) o db' \/
      exists s : string, runs (k (Failed s)) db o db'
  end.

(** A handler advances by one storage call at a time; between two of its
    calls other callers may run theirs. *)
Definition step {A : Type} (p : Prog A) (db : Store) : Prog A * Store :=
  match p with
  | Await op k => let (r, db') := exec op db in (k (Done r), db')
  | _ => (p, db)
  end.

(** Two callers; the schedule says whose storage call comes next ([false]:
    the first caller's). *)
Fixpoint interleave {A B : Type} (schedule : list bool)
    (p : Prog A) (q : Prog B) (db : Store) : Prog A * Prog B * Store :=
  match schedule with
  | [] => (p, q, db)
  | false :: schedule' =>
      let (p', db') := step p db in interleave schedule' p' q db'
  | true :: schedule' =>
      let (q', db') := step q db in interleave schedule' p q' db'
  end.

(** The spec's names for the business errors. *)
Definition DuplicateEmployeeId : Exc :=
  HTTPException 400 "Employee ID already exists".
Definition PersonNotFound : Exc :=
  HTTPException 404 "Person not found".
Definition AttendanceAlreadyMarked : Exc :=
  HTTPException 400 "Attendance already marked for today".

(** The spec's names for the read operations. *)
Definition historyFor (person_id : string) (db : Store)
    : Outcome (list AttendanceRecord) :=
  fst (run (get_person_attendance_history person_id) db).

Definition listForDay (date_str : string) (db : Store)
    : Outcome (list AttendanceRecord) :=
  fst (run (get_attendance_by_date date_str) db).

(** ** Requests served one after the other *)

Inductive Request : Type :=
| POST_persons (uuid4 : string) (utcnow : datetime)
    (person_data : PersonCreate)
| GET_persons
| GET_persons_id (person_id : string)
| DELETE_persons_id (person_id : string)
| POST_attendance (now_today : datetime) (uuid4 : string)
    (utcnow now_date : datetime) (attendance_data : AttendanceCreate)
| GET_attendance_today (now : datetime)
| GET_attendance_stats (now : datetime)
| GET_attendance_history (person_id : string)
| GET_attendance_date (date_str : string).

Inductive Body : Type :=
| a_person (p : Person)
| a_person_list (l : list Person)
| a_message (s : string)
| a_record (r : AttendanceRecord)
| a_record_list (l : list AttendanceRecord)
| a_stats (s : AttendanceStats).

Definition route (req : Request) : Prog Body :=
  match req with
  | POST_persons u t d => p <- create_person u t d ;; Return (a_person p)
  | GET_persons => l <- get_all_persons ;; Return (a_person_list l)
  | GET_persons_id i => p <- get_person i ;; Return (a_person p)
  | DELETE_persons_id i => m <- delete_person i ;; Return (a_message m)
  | POST_attendance n u t n' d =>
      r <- mark_attendance n u t n' d ;; Return (a_record r)
  | GET_attendance_today n =>
      l <- get_today_attendance n ;; Return (a_record_list l)
  | GET_attendance_stats n => s <- get_attendance_stats n ;; Return (a_stats s)
  | GET_attendance_history i =>
      l <- get_person_attendance_history i ;; Return (a_record_list l)
  | GET_attendance_date s =>
      l <- get_attendance_by_date s ;; Return (a_record_list l)
  end.

Definition serve (req : Request) (db : Store) : Outcome Body * Store :=
  run (route req) db.

(** The responses to a sequence of requests, and the database after it. *)
Fixpoint serve_all (reqs : list Request) (db : Store)
    : list (Outcome Body) * Store :=
  match reqs with
  | [] => ([], db)
  | req :: reqs' =>
      let (o, db') := serve req db in
      let (os, db'') := serve_all reqs' db' in
      (o :: os, db'')
  end.

(** ** The invariants of the data model and what a run is observed through *)

Definition person_ids (db : Store) : list string :=
  map Person.id (persons db).

Definition employee_ids (db : Store) : list string :=
  map Person.employee_id (persons db).

(** The uniqueness partition of an attendance record. *)
Definition person_day (r : AttendanceRecord) : string * string :=
  (AttendanceRecord.person_id r, AttendanceRecord.date r).

Definition person_days (db : Store) : list (string * string) :=
  map person_day (attendance db).

(** I1 and I2 of the data model. *)
Definition I1 (db : Store) : Prop := NoDup (employee_ids db).
Definition I2 (db : Store) : Prop := NoDup (person_days db).

(** The readings of the local clock a sequence of requests makes, in the
    order they are made. *)
Definition local_reads_of (req : Request) : list datetime :=
  match req with
  | POST_attendance now_today _ _ now_date _ => [now_today; now_date]
  | GET_attendance_today now => [now]
  | GET_attendance_stats now => [now]
  | _ => []
  end.

Definition local_reads (reqs : list Request) : list datetime :=
  flat_map local_reads_of reqs.

(** The local calendar day never goes backwards from one reading to the
    next, starting from the day [lo]. *)
Fixpoint days_nondecreasing_from (lo : list Z) (l : list datetime) : bool :=
  match l with
  | [] => true
  | t :: l' =>
      tuple_leb lo (calendar_day t) && days_nondecreasing_from (calendar_day t) l'
  end.

Definition days_nondecreasing (l : list datetime) : bool :=
  days_nondecreasing_from [] l.

(** The identifiers [uuid4()] hands to the registrations of a sequence. *)
Definition issued_of (req : Request) : list string :=
  match req with
  | POST_persons uuid4 _ _ => [uuid4]
  | _ => []
  end.

Definition issued (reqs : list Request) : list string :=
  flat_map issued_of reqs.

(** The (person, day) of every mark that succeeded, oldest first. *)
Definition marked_of (req : Request) (o : Outcome Body)
    : list (string * string) :=
  match req, o with
  | POST_attendance _ _ _ _ _, Returned (a_record r) => [person_day r]
  | _, _ => []
  end.

Fixpoint marked (reqs : list Request) (db : Store) : list (string * string) :=
  match reqs with
  | [] => []
  | req :: reqs' =>
      let (o, db') := serve req db in
      (marked_of req o ++ marked reqs' db')%list
  end.

(** The employee ids of every registration that succeeded, oldest first. *)
Definition registered_of (req : Request) (o : Outcome Body) : list string :=
  match req, o with
  | POST_persons _ _ _, Returned (a_person p) => [Person.employee_id p]
  | _, _ => []
  end.

Fixpoint registered (reqs : list Request) (db : Store) : list string :=
  match reqs with
  | [] => []
  | req :: reqs' =>
      let (o, db') := serve req db in
      (registered_of req o ++ registered reqs' db')%list
  end.

(** A sequence of register calls. *)
Definition register_calls (calls : list (string * datetime * PersonCreate))
    : list Request :=
  map (fun c => POST_persons (fst (fst c)) (snd (fst c)) (snd c)) calls.

(** Every stored date is a day key the server formatted. *)
Definition dates_server_assigned (db : Store) : Prop :=
  forall r, In r (attendance db) ->
            exists t, AttendanceRecord.date r = strftime_Ymd t.

(** The routes that only read. *)
Definition reads_only (req : Request) : bool :=
  match req with
  | POST_persons _ _ _ | DELETE_persons_id _ | POST_attendance _ _ _ _ _ => false
  | _ => true
  end.

(** Most recent first. *)
Definition newer_or_same (a b : AttendanceRecord) : Prop :=
  datetime_leb (AttendanceRecord.timestamp b) (AttendanceRecord.timestamp a) = true.

(** ** Sample data: the scenarios of the backend test script *)

Definition john : PersonCreate :=
  {| PersonCreate.name := "John Smith";
     PersonCreate.employee_id := "EMP001";
     PersonCreate.face_descriptor := "bW9ja19mYWNl";
     PersonCreate.photo := "bW9ja19waG90bw==";
     PersonCreate.role := "employee" |}.

Definition sarah : PersonCreate :=
  {| PersonCreate.name := "Sarah Johnson";
     PersonCreate.employee_id := "STU001";
     PersonCreate.face_descriptor := "bW9ja19mYWNl";
     PersonCreate.photo := "bW9ja19waG90bw==";
     PersonCreate.role := "student" |}.

(** 2024-03-10, 23:30:00 UTC, and the same instant on a local clock five
    hours and a half ahead: 2024-03-11, 05:00:00. *)
Definition utc_2330 : datetime := mkDatetime 2024 3 10 23 30 0 0.
Definition local_0500 : datetime := mkDatetime 2024 3 11 5 0 0 0.
Definition local_0501 : datetime := mkDatetime 2024 3 11 5 1 0 0.
Definition utc_2331 : datetime := mkDatetime 2024 3 10 23 31 0 0.
Definition local_next_day : datetime := mkDatetime 2024 3 12 9 0 0 0.
Definition utc_next_day : datetime := mkDatetime 2024 3 12 3 30 0 0.

(** What the client sends on recognizing a registered person, with the test
    script's confidence of 0.95 (as the double nearest to it). *)
Definition seen (person_id : string) (d : PersonCreate) : AttendanceCreate :=
  {| AttendanceCreate.person_id := person_id;
     AttendanceCreate.person_name := PersonCreate.name d;
     AttendanceCreate.employee_id := PersonCreate.employee_id d;
     AttendanceCreate.confidence := 0x1.e666666666666p-1%float;
     AttendanceCreate.photo := None |}.

(** The database with John registered under the identifier ["id-john"]. *)
Definition db_john : Store :=
  snd (serve (POST_persons "id-john" utc_2330 john) empty_db).

(** John and Sarah registered, John marked present. *)
Definition db_john_marked : Store :=
  snd (serve_all
    [POST_persons "id-john" utc_2330 john;
     POST_persons "id-sarah" utc_2330 sarah;
     POST_attendance local_0500 "id-rec-1" utc_2330 local_0500
       (seen "id-john" john)] empty_db).

(** A thousand and one persons, each registered and then marked present on
    the local day 2024-03-11. *)
Definition numbered (prefix : string) (i : nat) : string :=
  (prefix ++ pad4 (Z.of_nat i))%string.

Definition nth_person (i : nat) : PersonCreate :=
  {| PersonCreate.name := numbered "Person " i;
     PersonCreate.employee_id := numbered "EMP" i;
     PersonCreate.face_descriptor := "bW9ja19mYWNl";
     PersonCreate.photo := "bW9ja19waG90bw==";
     PersonCreate.role := "employee" |}.

Definition crowd (n : nat) : list Request :=
  flat_map (fun i =>
    [POST_persons (numbered "id-" i) utc_2330 (nth_person i);
     POST_attendance local_0500 (numbered "rec-" i) utc_2330 local_0500
       (seen (numbered "id-" i) (nth_person i))]) (seq 0 n).

Definition db_crowd : Store := snd (serve_all (crowd 1001) empty_db).

(** The day the local clock shows after the readings [l], having shown [lo]
    before them. *)
Definition last_day (lo : list Z) (l : list datetime) : list Z :=
  fold_left (fun _ t => calendar_day t) l lo.

(** What holds of the database between two requests of a run in which
    [uuid4()] never repeats and every mark that passes its duplicate check
    stores a (person, day) no stored record has: [iss] is the list of the
    person ids issued so far, [past] the (person, day) of the marks that
    succeeded so far. *)
Record ledger_inv (iss : list string)
    (past : list (string * string)) (db : Store) : Prop := {
  inv_I2 : NoDup (person_days db);
  inv_past : forall k, In k past ->
    In k (person_days db) \/
    (~ In (fst k) (person_ids db) /\ In (fst k) iss);
  inv_issued : forall i, In i (person_ids db) -> In i iss;
  inv_ids : NoDup (person_ids db);
  inv_once : NoDup past
}.

(** Every stored date is the day key of a day not after [lo]. *)
Definition dates_below (lo : list Z) (db : Store) : Prop :=
  forall r, In r (attendance db) ->
    exists t, valid_datetime t = true /\
              AttendanceRecord.date r = strftime_Ymd t /\
              tuple_leb (calendar_day t) lo = true.

(** If the request is a mark that passes its duplicate check on [db], the
    (person, day) of its record is one no stored record has. *)
Definition stores_fresh_day (req : Request) (db : Store) : Prop :=
  match req with
  | POST_attendance now_today _ _ now_date attendance_data =>
      existsb (of_person_on_date (AttendanceCreate.person_id attendance_data)
                 (strftime_Ymd now_today)) (attendance db) = false ->
      ~ In (AttendanceCreate.person_id attendance_data, strftime_Ymd now_date)
           (person_days db)
  | _ => True
  end.

(** The outcome of a handler that has finished. *)
Definition outcome_of {A : Type} (p : Prog A) : option (Outcome A) :=
  match p with
  | Return a => Some (Returned a)
  | Raise e => Some (Raised e)
  | Await _ _ => None
  end.

(** A day at the front desk: John is registered, recognized twice on
    2024-03-11 and once more the next day. *)
Definition two_days : list Request :=
  [POST_persons "id-john" utc_2330 john;
   POST_attendance local_0500 "id-rec-1" utc_2330 local_0500
     (seen "id-john" john);
   GET_attendance_stats local_0501;
   POST_attendance local_0501 "id-rec-2" utc_2331 local_0501
     (seen "id-john" john);
   POST_attendance local_next_day "id-rec-3" utc_next_day local_next_day
     (seen "id-john" john)].

(** A mark whose two readings of the local clock give the same day key. *)
Definition one_day_per_mark (req : Request) : bool :=
  match req with
  | POST_attendance now_today _ _ now_date _ =>
      String.eqb (strftime_Ymd now_today) (strftime_Ymd now_date)
  | _ => true
  end.

(** Two callers register the same employee id at the same time: both look
    for an existing Person before either inserts. *)
Definition race_register : Prog Person * Prog Person * Store :=
  interleave [false; true; false; true]
    (create_person "id-1" utc_2330 john)
    (create_person "id-2" utc_2330 john)
    empty_db.

(** Two callers mark John present at the same time: both look up the
    Person, both look for today's record, then both insert. *)
Definition race_mark : Prog AttendanceRecord * Prog AttendanceRecord * Store :=
  interleave [false; true; false; true; false; true]
    (mark_attendance local_0500 "id-rec-1" utc_2330 local_0500
       (seen "id-john" john))
    (mark_attendance local_0500 "id-rec-2" utc_2330 local_0500
       (seen "id-john" john))
    db_john.

(** The rate in the spec's words: a number [n] of hundredths is
    [present / total * 100] rounded to two decimal places when no other
    number of hundredths is nearer to it, that is when
    [|n / 100 - 100 * present / total| <= 1 / 200]. *)
Definition rounds_percentage (n present total : Z) : bool :=
  2 * Z.abs (n * total - 10000 * present) <=? total.

(** The number of hundredths a non-negative finite float stands for. *)
Definition hundredths (x : float) : option Z :=
  match Prim2SF x with
  | S754_zero _ => Some 0
  | S754_finite false m e => Some (nearest_hundredths (Z.pos m) e)
  | _ => None
  end.

(** The rate field the handler computes from the two counts. *)
Definition rate_of (present total : Z) : float :=
  as_float (round2 (if total >? 0
                    then Float (truediv present total * 100)%float
                    else Int 0)).

(** All pairs [0 <= present <= total] with [1 <= total <= n]. *)
Definition head_counts (n : nat) : list (Z * Z) :=
  flat_map (fun t => map (fun p => (Z.of_nat p, Z.of_nat t)) (seq 0 (S t)))
           (seq 1 n).

(** I3 of the data model: every attendance record refers to a stored
    Person. *)
Definition I3 (db : Store) : Prop :=
  forall r, In r (attendance db) ->
            In (AttendanceRecord.person_id r) (person_ids db).

(** The client recognizes John but sends Sarah's name and employee id. *)
Definition john_as_sarah : AttendanceCreate := seen "id-john" sarah.

(** A delete of John racing a mark of John: the mark looks the Person up,
    the delete makes both its calls, then the mark checks and inserts. *)
Definition mark_around_delete : list bool := [true; false; false; true; true].

(** Two registrations racing: both look, then both insert. *)
Definition check_check_insert_insert : list bool := [false; true; false; true].

(** The status codes each route can answer with when it fails. *)
Definition may_raise (req : Request) : list Z :=
  match req with
  | POST_persons _ _ _ => [400; 500]
  | GET_persons_id _ => [404; 500]
  | DELETE_persons_id _ => [404; 500]
  | POST_attendance _ _ _ _ _ => [404; 400; 500]
  | _ => [500]
  end.

(** A handler's outcome under a change of the returned value. *)
Definition map_outcome {A B : Type} (f : A -> B) (o : Outcome A) : Outcome B :=
  match o with
  | Returned a => Returned (f a)
  | Raised e => Raised e
  end.

(** A reading of the UTC clock with microseconds, 23:31:07.123456, and what
    BSON keeps of it. *)
Definition utc_233107_123456 : datetime := mkDatetime 2024 3 10 23 31 7 123456.
Definition utc_233107_123 : datetime := mkDatetime 2024 3 10 23 31 7 123000.

(** The local clock is set back: John is marked on 2024-03-12 at 09:00, then
    the clock shows 2024-03-11 again, and midnight passes between the two
    readings of his next mark. *)
Definition local_before_midnight : datetime :=
  mkDatetime 2024 3 11 23 59 59 999999.
Definition local_after_midnight : datetime :=
  mkDatetime 2024 3 12 0 0 0 1.

Definition clock_set_back : list Request :=
  [POST_persons "id-john" utc_2330 john;
   POST_attendance local_next_day "id-rec-1" utc_next_day local_next_day
     (seen "id-john" john);
   POST_attendance local_before_midnight "id-rec-2" utc_next_day
     local_after_midnight (seen "id-john" john)].

(** The location of the fraction [N / D] in the unit interval, as the
    rounding of the float operations records it: zero, below the middle,
    the middle, or above it. *)
Definition loc_of (N D : Z) : location :=
  if N =? 0 then loc_Exact else loc_Inexact (2 * N ?= D).

(** The real number a float stands for (0 for the infinities and NaN). *)
Definition SF2R (x : spec_float) : R :=
  match x with
  | S754_finite s m e =>
      let v := (IZR (Z.pos m) * powerRZ 2 e)%R in
      if s then (- v)%R else v
  | _ => 0%R
  end.

Definition float_value (x : float) : R := SF2R (Prim2SF x).

(** * Properties *)

(** ** Tuples, days and day keys *)

Lemma tuple_compare_refl (a : list Z) : tuple_compare a a = Eq.
Proof.
  induction a as [|x a IH]; simpl; [reflexivity|].
  now rewrite Z.compare_refl.
Qed.

Lemma tuple_compare_eq (a b : list Z) : tuple_compare a b = Eq -> a = b.
Proof.
  revert b; induction a as [|x a IH]; intros [|y b]; simpl; try easy.
  destruct (Z.compare_spec x y) as [Hxy|Hxy|Hxy]; try easy.
  intros Hab; subst; f_equal; auto.
Qed.

Lemma tuple_leb_refl (a : list Z) : tuple_leb a a = true.
Proof. unfold tuple_leb; now rewrite tuple_compare_refl. Qed.

Lemma tuple_leb_nil (a : list Z) : tuple_leb [] a = true.
Proof. now destruct a. Qed.

Lemma tuple_leb_trans (a b c : list Z) :
  tuple_leb a b = true -> tuple_leb b c = true -> tuple_leb a c = true.
Proof.
  unfold tuple_leb.
  revert b c; induction a as [|x a IH]; intros [|y b] [|z c]; simpl; try easy.
  destruct (Z.compare_spec x y), (Z.compare_spec y z), (Z.compare_spec x z);
    try easy; try lia.
  apply IH.
Qed.

Lemma tuple_leb_antisym (a b : list Z) :
  tuple_leb a b = true -> tuple_leb b a = true -> a = b.
Proof.
  unfold tuple_leb.
  revert b; induction a as [|x a IH]; intros [|y b]; simpl; try easy.
  destruct (Z.compare_spec x y), (Z.compare_spec y x); try easy; try lia.
  intros; subst; f_equal; auto.
Qed.

Lemma tuple_leb_total (a b : list Z) :
  tuple_leb a b = true \/ tuple_leb b a = true.
Proof.
  unfold tuple_leb.
  revert b; induction a as [|x a IH]; intros [|y b]; simpl; auto.
  destruct (Z.compare_spec x y), (Z.compare_spec y x); auto; lia.
Qed.

Lemma valid_datetime_bounds (t : datetime) :
  valid_datetime t = true ->
  1 <= year t <= 9999 /\ 1 <= month t <= 12 /\ 1 <= day t <= 31.
Proof.
  unfold valid_datetime; rewrite !andb_true_iff, !Z.leb_le.
  intros Hv; decompose [and] Hv; clear Hv.
  assert (days_in_month (year t) (month t) <= 31).
  { unfold days_in_month.
    destruct (month t =? 2); [destruct (is_leap (year t)); lia|].
    destruct ((month t =? 4) || (month t =? 6) || (month t =? 9) || (month t =? 11));
      lia. }
  lia.
Qed.

Lemma digit_inj (a b : Z) : digit a = digit b -> a mod 10 = b mod 10.
Proof.
  unfold digit; intros H.
  pose proof (Z.mod_pos_bound a 10) as Ha.
  pose proof (Z.mod_pos_bound b 10) as Hb.
  apply (f_equal N_of_ascii) in H.
  rewrite !N_ascii_embedding in H by lia.
  lia.
Qed.

Lemma pad2_inj (a b : Z) :
  0 <= a < 100 -> 0 <= b < 100 -> pad2 a = pad2 b -> a = b.
Proof.
  unfold pad2; intros Ha Hb H.
  injection H as H1 H0.
  apply digit_inj in H1, H0.
  revert H1 H0. Z.to_euclidean_division_equations. lia.
Qed.

Lemma pad4_inj (a b : Z) :
  0 <= a < 10000 -> 0 <= b < 10000 -> pad4 a = pad4 b -> a = b.
Proof.
  unfold pad4, pad2; intros Ha Hb H.
  injection H as H3 H2 H1 H0.
  apply digit_inj in H3, H2, H1, H0.
  revert H3 H2 H1 H0. Z.to_euclidean_division_equations. lia.
Qed.

(** On datetimes the constructor accepts, the day key determines the
    calendar day. *)
Lemma strftime_Ymd_inj (a b : datetime) :
  valid_datetime a = true -> valid_datetime b = true ->
  strftime_Ymd a = strftime_Ymd b -> calendar_day a = calendar_day b.
Proof.
  intros Ha Hb H.
  apply valid_datetime_bounds in Ha, Hb.
  unfold strftime_Ymd, pad4 in H; simpl in H.
  injection H as H3 H2 Hy1 Hy0 Hm1 Hm0 Hd1 Hd0.
  assert (Hy : pad4 (year a) = pad4 (year b))
    by (unfold pad4, pad2; now rewrite H3, H2, Hy1, Hy0).
  assert (Hm : pad2 (month a) = pad2 (month b))
    by (unfold pad2; now rewrite Hm1, Hm0).
  assert (Hd : pad2 (day a) = pad2 (day b))
    by (unfold pad2; now rewrite Hd1, Hd0).
  apply pad4_inj in Hy; [|lia|lia].
  apply pad2_inj in Hm; [|lia|lia].
  apply pad2_inj in Hd; [|lia|lia].
  unfold calendar_day; congruence.
Qed.

(** ** Lists as collections *)

Lemma truthy_find {A : Type} (q : A -> bool) (l : list A) :
  truthy (find q l) = existsb q l.
Proof.
  induction l as [|x l IH]; simpl; [reflexivity|].
  now destruct (q x).
Qed.

Lemma existsb_false_filter {A : Type} (q : A -> bool) (l : list A) :
  existsb q l = false -> filter q l = [].
Proof.
  induction l as [|x l IH]; simpl; [reflexivity|].
  destruct (q x); simpl; [discriminate|exact IH].
Qed.

Lemma existsb_false_Forall {A : Type} (q : A -> bool) (l : list A) :
  existsb q l = false <-> Forall (fun x => q x = false) l.
Proof.
  induction l as [|x l IH]; simpl.
  - split; [constructor|reflexivity].
  - rewrite orb_false_iff, IH. split.
    + intros [H1 H2]; now constructor.
    + intros H; inversion H; auto.
Qed.

Lemma count_zero {A : Type} (q : A -> bool) (l : list A) :
  (Z.min 1 (count q l) =? 0) = negb (existsb q l).
Proof.
  unfold count.
  induction l as [|x l IH]; simpl; [reflexivity|].
  destruct (q x); simpl; [|exact IH].
  apply Z.eqb_neq; lia.
Qed.

Lemma remove_first_none {A : Type} (q : A -> bool) (l : list A) :
  existsb q l = false -> remove_first q l = l.
Proof.
  induction l as [|x l IH]; simpl; [reflexivity|].
  destruct (q x); simpl; [discriminate|].
  intros H; now rewrite IH.
Qed.

Lemma remove_first_incl {A : Type} (q : A -> bool) (l : list A) (x : A) :
  In x (remove_first q l) -> In x l.
Proof.
  induction l as [|y l IH]; simpl; [easy|].
  destruct (q y); simpl; intuition.
Qed.

Lemma filter_negb_none {A : Type} (q : A -> bool) (l : list A) :
  existsb q (filter (fun x => negb (q x)) l) = false.
Proof.
  induction l as [|x l IH]; simpl; [reflexivity|].
  destruct (q x) eqn:E; simpl; [exact IH|].
  now rewrite E.
Qed.

Lemma existsb_firstn_false {A : Type} (q : A -> bool) (n : nat) (l : list A) :
  existsb q l = false -> existsb q (firstn n l) = false.
Proof.
  revert n; induction l as [|x l IH]; intros [|n]; simpl; try reflexivity.
  rewrite !orb_false_iff; intros [H1 H2]; auto.
Qed.

Lemma eta_Store (db : Store) : mkStore (persons db) (attendance db) = db.
Proof. now destruct db. Qed.

(** ** What each handler does on a storage that answers *)

Lemma run_bind {A B : Type} (m : Prog A) (f : A -> Prog B) (db : Store) :
  run (bind m f) db =
  match run m db with
  | (Returned a, db') => run (f a) db'
  | (Raised e, db') => (Raised e, db')
  end.
Proof.
  revert db; induction m as [a|e|R op k IH]; intros db; simpl; try reflexivity.
  destruct (exec op db) as [r db']; apply IH.
Qed.

Lemma run_create_person u t d db :
  run (create_person u t d) db =
  if existsb (has_employee_id (PersonCreate.employee_id d)) (persons db)
  then (Raised DuplicateEmployeeId, db)
  else (Returned (new_Person u t d),
        mkStore (persons db ++ [bson_person (new_Person u t d)])%list (attendance db)).
Proof.
  unfold create_person; simpl.
  rewrite <- truthy_find.
  now destruct (find _ (persons db)).
Qed.

Lemma run_get_all_persons db :
  run get_all_persons db = (Returned (firstn 1000 (persons db)), db).
Proof.
  unfold get_all_persons; simpl.
  replace (filter any (persons db)) with (persons db); [reflexivity|].
  induction (persons db) as [|p l IH]; simpl; congruence.
Qed.

Lemma run_get_person i db :
  run (get_person i) db =
  match find (has_id i) (persons db) with
  | Some p => (Returned p, db)
  | None => (Raised PersonNotFound, db)
  end.
Proof.
  unfold get_person; simpl.
  now destruct (find _ (persons db)).
Qed.

Lemma run_delete_person i db :
  run (delete_person i) db =
  if existsb (has_id i) (persons db)
  then (Returned "Person and their attendance records deleted successfully"%string,
        mkStore (remove_first (has_id i) (persons db))
                (filter (fun r => negb (of_person i r)) (attendance db)))
  else (Raised PersonNotFound, db).
Proof.
  unfold delete_person; simpl.
  rewrite count_zero.
  destruct (existsb _ (persons db)) eqn:E; simpl; [reflexivity|].
  now rewrite remove_first_none, eta_Store.
Qed.

Lemma run_mark_attendance n u t n' d db :
  run (mark_attendance n u t n' d) db =
  if negb (existsb (has_id (AttendanceCreate.person_id d)) (persons db))
  then (Raised PersonNotFound, db)
  else if existsb (of_person_on_date (AttendanceCreate.person_id d)
                     (strftime_Ymd n)) (attendance db)
  then (Raised AttendanceAlreadyMarked, db)
  else (Returned (new_AttendanceRecord u t n' d),
        mkStore (persons db)
                (attendance db ++ [bson_record (new_AttendanceRecord u t n' d)])%list).
Proof.
  unfold mark_attendance; simpl.
  rewrite <- !truthy_find.
  destruct (find _ (persons db)); simpl; [|reflexivity].
  now destruct (find _ (attendance db)).
Qed.

Lemma run_get_today_attendance n db :
  run (get_today_attendance n) db =
  (Returned (firstn 1000 (filter (on_date (strftime_Ymd n)) (attendance db))),
   db).
Proof. reflexivity. Qed.

Lemma run_get_person_attendance_history i db :
  run (get_person_attendance_history i) db =
  (Returned (firstn 100
     (sort_timestamp_desc (filter (of_person i) (attendance db)))), db).
Proof. reflexivity. Qed.

Lemma run_get_attendance_by_date s db :
  run (get_attendance_by_date s) db =
  (Returned (firstn 1000 (filter (on_date s) (attendance db))), db).
Proof. reflexivity. Qed.

Lemma run_get_attendance_stats n db :
  run (get_attendance_stats n) db =
  (let total_registered := count any (persons db) in
   let present_today := count (on_date (strftime_Ymd n)) (attendance db) in
   Returned
     {| AttendanceStats.total_registered := total_registered;
        AttendanceStats.present_today := present_today;
        AttendanceStats.absent_today :=
          Z.max 0 (total_registered - present_today);
        AttendanceStats.attendance_rate :=
          as_float (round2
            (if total_registered >? 0
             then Float (truediv present_today total_registered * 100)%float
             else Int 0)) |}, db).
Proof. reflexivity. Qed.

Lemma count_any {A : Type} (l : list A) : count any l = Z.of_nat (List.length l).
Proof.
  unfold count; f_equal; f_equal.
  induction l as [|x l IH]; simpl; congruence.
Qed.

Lemma existsb_eqb_In {A : Type} (f : A -> string) (e : string) (l : list A) :
  existsb (fun x => String.eqb (f x) e) l = true <-> In e (map f l).
Proof.
  induction l as [|x l IH]; simpl; [easy|].
  rewrite orb_true_iff, IH, String.eqb_eq. tauto.
Qed.

Lemma existsb_eqb_not_In {A : Type} (f : A -> string) (e : string) (l : list A) :
  existsb (fun x => String.eqb (f x) e) l = false <-> ~ In e (map f l).
Proof.
  rewrite <- existsb_eqb_In.
  destruct (existsb _ l); split; intros; congruence.
Qed.

Lemma In_firstn {A : Type} (n : nat) (l : list A) (x : A) :
  In x (firstn n l) -> In x l.
Proof.
  revert n; induction l as [|y l IH]; intros [|n]; simpl; try easy.
  intros [H|H]; eauto.
Qed.

Lemma remove_first_has_id (i : string) (l : list Person) :
  NoDup (map Person.id l) ->
  existsb (has_id i) (remove_first (has_id i) l) = false.
Proof.
  induction l as [|p l IH]; simpl; [reflexivity|].
  intros H; inversion H as [|? ? Hnotin Hnodup]; subst.
  unfold has_id at 2.
  destruct (String.eqb_spec (Person.id p) i) as [E|E].
  - subst. now apply (existsb_eqb_not_In Person.id).
  - simpl. unfold has_id at 1.
    apply String.eqb_neq in E. rewrite E. simpl. auto.
Qed.

(** ** Requests *)

Lemma serve_POST_persons u t d db :
  serve (POST_persons u t d) db =
  if existsb (has_employee_id (PersonCreate.employee_id d)) (persons db)
  then (Raised DuplicateEmployeeId, db)
  else (Returned (a_person (new_Person u t d)),
        mkStore (persons db ++ [bson_person (new_Person u t d)])%list (attendance db)).
Proof.
  unfold serve, route. rewrite run_bind, run_create_person.
  now destruct (existsb _ (persons db)).
Qed.

Lemma serve_DELETE_persons_id i db :
  serve (DELETE_persons_id i) db =
  if existsb (has_id i) (persons db)
  then (Returned (a_message
          "Person and their attendance records deleted successfully"%string),
        mkStore (remove_first (has_id i) (persons db))
                (filter (fun r => negb (of_person i r)) (attendance db)))
  else (Raised PersonNotFound, db).
Proof.
  unfold serve, route. rewrite run_bind, run_delete_person.
  now destruct (existsb _ (persons db)).
Qed.

Lemma serve_POST_attendance n u t n' d db :
  serve (POST_attendance n u t n' d) db =
  if negb (existsb (has_id (AttendanceCreate.person_id d)) (persons db))
  then (Raised PersonNotFound, db)
  else if existsb (of_person_on_date (AttendanceCreate.person_id d)
                     (strftime_Ymd n)) (attendance db)
  then (Raised AttendanceAlreadyMarked, db)
  else (Returned (a_record (new_AttendanceRecord u t n' d)),
        mkStore (persons db)
                (attendance db ++ [bson_record (new_AttendanceRecord u t n' d)])%list).
Proof.
  unfold serve, route. rewrite run_bind, run_mark_attendance.
  destruct (existsb _ (persons db)); simpl; [|reflexivity].
  now destruct (existsb _ (attendance db)).
Qed.

Lemma serve_reads_only req db :
  reads_only req = true -> snd (serve req db) = db.
Proof.
  destruct req; intros H; try discriminate H; clear H; unfold serve, route;
    rewrite run_bind.
  - now rewrite run_get_all_persons.
  - rewrite run_get_person. now destruct (find _ (persons db)).
  - reflexivity.
  - reflexivity.
  - reflexivity.
  - reflexivity.
Qed.

(** ** Registration *)

Lemma registered_fresh (calls : list (string * datetime * PersonCreate))
    (db : Store) :
  NoDup (registered (register_calls calls) db) /\
  forall e, In e (registered (register_calls calls) db) ->
            ~ In e (employee_ids db).
Proof.
  revert db; induction calls as [|[[u t] d] calls IH]; intros db; simpl.
  - split; [constructor|easy].
  - rewrite serve_POST_persons.
    destruct (existsb _ (persons db)) eqn:E; simpl.
    + apply IH.
    + specialize (IH (mkStore (persons db ++ [bson_person (new_Person u t d)])%list
                              (attendance db))).
      destruct IH as [IHn IHf].
      assert (Hsub : forall e, ~ In e (employee_ids
                 (mkStore (persons db ++ [bson_person (new_Person u t d)])%list (attendance db))) ->
               ~ In e (employee_ids db) /\ e <> PersonCreate.employee_id d).
      { unfold employee_ids; simpl; intros e He.
        rewrite map_app, in_app_iff in He; simpl in He.
        split; [tauto|]. intros ->; tauto. }
      split.
      * constructor; [|exact IHn].
        intros Hin. apply IHf, Hsub in Hin. tauto.
      * intros e [<-|Hin].
        -- now apply (existsb_eqb_not_In Person.employee_id) in E.
        -- apply IHf, Hsub in Hin. tauto.
Qed.

(** C2.  In every sequence of register calls, from any database, the
    registrations that succeed have pairwise distinct employee ids.  A single
    register whose employee id is that of a stored Person raises
    DuplicateEmployeeId (400) and leaves both collections as they were;
    otherwise it returns the Person built from the request's fields, the
    generated id and the creation time, and appends exactly that Person to
    the persons collection (as storage keeps it: created_at to the
    millisecond, every other field as returned), the attendance collection
    untouched. *)
Theorem register_unique_employee_id
    (calls : list (string * datetime * PersonCreate)) (db : Store)
    (uuid4 : string) (utcnow : datetime) (person_data : PersonCreate) :
  NoDup (registered (register_calls calls) db) /\
  run (create_person uuid4 utcnow person_data) db =
    (if existsb (has_employee_id (PersonCreate.employee_id person_data))
          (persons db)
     then (Raised DuplicateEmployeeId, db)
     else (Returned (new_Person uuid4 utcnow person_data),
           mkStore (persons db ++
                    [bson_person (new_Person uuid4 utcnow person_data)])%list
                   (attendance db))) /\
  Person.id (new_Person uuid4 utcnow person_data) = uuid4 /\
  Person.created_at (new_Person uuid4 utcnow person_data) = utcnow /\
  Person.employee_id (new_Person uuid4 utcnow person_data) =
    PersonCreate.employee_id person_data /\
  Person.name (new_Person uuid4 utcnow person_data) =
    PersonCreate.name person_data /\
  Person.face_descriptor (new_Person uuid4 utcnow person_data) =
    PersonCreate.face_descriptor person_data /\
  Person.photo (new_Person uuid4 utcnow person_data) =
    PersonCreate.photo person_data /\
  Person.role (new_Person uuid4 utcnow person_data) =
    PersonCreate.role person_data /\
  (let stored := bson_person (new_Person uuid4 utcnow person_data) in
   Person.id stored = uuid4 /\
   Person.employee_id stored = PersonCreate.employee_id person_data /\
   Person.name stored = PersonCreate.name person_data /\
   Person.face_descriptor stored = PersonCreate.face_descriptor person_data /\
   Person.photo stored = PersonCreate.photo person_data /\
   Person.role stored = PersonCreate.role person_data /\
   calendar_day (Person.created_at stored) = calendar_day utcnow /\
   hour (Person.created_at stored) = hour utcnow /\
   minute (Person.created_at stored) = minute utcnow /\
   second (Person.created_at stored) = second utcnow /\
   microsecond (Person.created_at stored) = microsecond utcnow / 1000 * 1000).
Proof.
  split; [apply registered_fresh|].
  split; [apply run_create_person|].
  repeat split.
Qed.

(** ** Marking an unknown person *)

(** C4.  A mark whose person_id belongs to no stored Person, because it was
    never registered or because the Person was deleted (from a database where
    person ids are unique), raises PersonNotFound (404) and leaves the
    database as it was: no attendance record is created. *)
Theorem mark_person_not_found
    (now_today : datetime) (uuid4 : string) (utcnow now_date : datetime)
    (attendance_data : AttendanceCreate) (db : Store) :
  (~ In (AttendanceCreate.person_id attendance_data) (person_ids db) \/
   exists db0 message,
     NoDup (person_ids db0) /\
     run (delete_person (AttendanceCreate.person_id attendance_data)) db0 =
       (Returned message, db)) ->
  run (mark_attendance now_today uuid4 utcnow now_date attendance_data) db =
    (Raised PersonNotFound, db).
Proof.
  intros H.
  assert (E : existsb (has_id (AttendanceCreate.person_id attendance_data))
                (persons db) = false).
  { destruct H as [H|(db0 & message & Hnd & Hdel)].
    - now apply (existsb_eqb_not_In Person.id).
    - rewrite run_delete_person in Hdel.
      destruct (existsb _ (persons db0)); [|discriminate].
      injection Hdel as _ <-. simpl.
      now apply remove_first_has_id. }
  rewrite run_mark_attendance, E. reflexivity.
Qed.

Lemma mark_person_not_found_witness :
  run (mark_attendance local_0500 "id-rec-1" utc_2330 local_0500
         (seen "id-nobody" john)) db_john =
    (Raised PersonNotFound, db_john) /\
  run (mark_attendance local_0500 "id-rec-1" utc_2330 local_0500
         (seen "id-john" john)) empty_db =
    (Raised PersonNotFound, empty_db).
Proof.
  split.
  - apply mark_person_not_found. left.
    simpl. intros [H|[]]. discriminate H.
  - apply mark_person_not_found. right.
    exists db_john. eexists. split.
    + repeat constructor. simpl. tauto.
    + reflexivity.
Defined.

(** ** Statistics *)

(** *** Floating-point arithmetic

    The rate is computed with three float operations (a division, a product
    with 100 and the division by 100 inside [round]).  Each is specified by
    [binary_round_aux]; what follows bounds its error. *)

Lemma digits2_pos_size (p : positive) : digits2_pos p = Pos.size p.
Proof. induction p; simpl; congruence. Qed.

Lemma digits2_pos_bounds (p : positive) :
  2 ^ (Z.pos (digits2_pos p) - 1) <= Z.pos p < 2 ^ Z.pos (digits2_pos p).
Proof.
  rewrite digits2_pos_size.
  pose proof (Pos.size_gt p) as Hgt. pose proof (Pos.size_le p) as Hle.
  apply Pos2Z.pos_lt_pos in Hgt. apply Pos2Z.pos_le_pos in Hle.
  rewrite Pos2Z.inj_pow in Hgt, Hle. rewrite (Pos2Z.inj_xO p) in Hle.
  split; [|exact Hgt].
  replace (Z.pos (Pos.size p)) with (Z.pos (Pos.size p) - 1 + 1) in Hle by lia.
  rewrite Z.pow_add_r in Hle by lia. lia.
Qed.

Lemma Zdigits2_unique (m d : Z) :
  2 ^ (d - 1) <= m < 2 ^ d -> 0 < d -> Zdigits2 m = d.
Proof.
  intros [Hlo Hhi] Hd.
  assert (Hm : 0 < m) by (pose proof (Z.pow_pos_nonneg 2 (d - 1)); lia).
  destruct m as [|p|p]; try lia. cbn [Zdigits2].
  pose proof (digits2_pos_bounds p) as [Hlo' Hhi'].
  set (s := Z.pos (digits2_pos p)) in *.
  destruct (Z.lt_trichotomy s d) as [H|[H|H]]; [|exact H|].
  - assert (2 ^ s <= 2 ^ (d - 1)) by (apply Z.pow_le_mono_r; lia). lia.
  - assert (2 ^ d <= 2 ^ (s - 1)) by (apply Z.pow_le_mono_r; lia). lia.
Qed.

Lemma shr_record_of_loc_m (m : Z) (l : location) :
  shr_m (shr_record_of_loc m l) = m.
Proof. destruct l as [|[]]; reflexivity. Qed.

Lemma loc_of_shr_record_of_loc (m : Z) (l : location) :
  loc_of_shr_record (shr_record_of_loc m l) = l.
Proof. destruct l as [|[]]; reflexivity. Qed.

Ltac loc_cases :=
  unfold loc_of in *;
  repeat match goal with
  | |- context [?a =? ?b] => destruct (Z.eqb_spec a b)
  | H : context [?a =? ?b] |- _ => destruct (Z.eqb_spec a b)
  end;
  repeat match goal with
  | |- context [?a ?= ?b] => destruct (Z.compare_spec a b)
  | H : context [?a ?= ?b] |- _ => destruct (Z.compare_spec a b)
  end;
  try discriminate; try reflexivity; try lia.

(** One shift to the right: the mantissa is halved and the location is that
    of the fraction with the dropped bit in front. *)
Lemma shr_1_spec (mrs : shr_record) (N D : Z) :
  0 <= shr_m mrs -> 0 <= N < D ->
  loc_of_shr_record mrs = loc_of N D ->
  exists low, 0 <= low < 2 /\
    shr_m mrs = shr_m (shr_1 mrs) * 2 + low /\
    0 <= shr_m (shr_1 mrs) /\
    loc_of_shr_record (shr_1 mrs) = loc_of (low * D + N) (2 * D).
Proof.
  destruct mrs as [m r s]. cbn [shr_m]. intros Hm HN Hloc.
  destruct m as [|[p|p|]|p]; try lia;
    [exists 0|exists 1|exists 0|exists 1];
    (split; [lia|]);
    destruct r, s; cbn [shr_1 shr_m loc_of_shr_record orb] in *;
    (split; [lia|]); (split; [lia|]); loc_cases.
Qed.

Lemma iter_pos_shr_1_spec (p : positive) :
  forall (mrs : shr_record) (N D : Z),
  0 <= shr_m mrs -> 0 <= N < D ->
  loc_of_shr_record mrs = loc_of N D ->
  exists low, 0 <= low < 2 ^ Z.pos p /\
    shr_m mrs = shr_m (SpecFloat.iter_pos shr_1 p mrs) * 2 ^ Z.pos p + low /\
    0 <= shr_m (SpecFloat.iter_pos shr_1 p mrs) /\
    loc_of_shr_record (SpecFloat.iter_pos shr_1 p mrs) =
      loc_of (low * D + N) (2 ^ Z.pos p * D).
Proof.
  induction p as [p IH|p IH|]; intros mrs N D Hm HN Hloc; cbn [SpecFloat.iter_pos].
  - destruct (shr_1_spec mrs N D Hm HN Hloc) as (l0 & Hl0 & E0 & P0 & L0).
    assert (HX : 0 < 2 ^ Z.pos p) by (apply Z.pow_pos_nonneg; lia).
    rewrite (Pos2Z.inj_xI p).
    replace (2 ^ (2 * Z.pos p + 1)) with (2 ^ Z.pos p * 2 ^ Z.pos p * 2)
      by (rewrite Z.pow_add_r, Z.pow_twice_r by lia; lia).
    set (X := 2 ^ Z.pos p) in *.
    destruct (IH _ (l0 * D + N) (2 * D) P0 ltac:(nia) L0)
      as (l1 & Hl1 & E1 & P1 & L1).
    assert (Hl1' : l1 * (2 * D) <= (X - 1) * (2 * D))
      by (apply Z.mul_le_mono_nonneg_r; lia).
    destruct (IH _ (l1 * (2 * D) + (l0 * D + N)) (X * (2 * D))
                P1 ltac:(nia) L1) as (l2 & Hl2 & E2 & P2 & L2).
    assert (Hl2' : l2 * X <= (X - 1) * X)
      by (apply Z.mul_le_mono_nonneg_r; lia).
    exists ((l2 * X + l1) * 2 + l0).
    split; [nia|]. split; [rewrite E0, E1, E2; ring|]. split; [exact P2|].
    rewrite L2. f_equal; ring.
  - assert (HX : 0 < 2 ^ Z.pos p) by (apply Z.pow_pos_nonneg; lia).
    rewrite (Pos2Z.inj_xO p).
    replace (2 ^ (2 * Z.pos p)) with (2 ^ Z.pos p * 2 ^ Z.pos p)
      by (rewrite Z.pow_twice_r; lia).
    set (X := 2 ^ Z.pos p) in *.
    destruct (IH _ N D Hm HN Hloc) as (l1 & Hl1 & E1 & P1 & L1).
    assert (Hl1' : l1 * D <= (X - 1) * D)
      by (apply Z.mul_le_mono_nonneg_r; lia).
    destruct (IH _ (l1 * D + N) (X * D) P1 ltac:(nia) L1)
      as (l2 & Hl2 & E2 & P2 & L2).
    assert (Hl2' : l2 * X <= (X - 1) * X)
      by (apply Z.mul_le_mono_nonneg_r; lia).
    exists (l2 * X + l1).
    split; [nia|]. split; [rewrite E1, E2; ring|]. split; [exact P2|].
    rewrite L2. f_equal; ring.
  - destruct (shr_1_spec mrs N D Hm HN Hloc) as (l0 & Hl0 & E0 & P0 & L0).
    exists l0. change (2 ^ 1) with 2. auto.
Qed.

(** [k] shifts to the right. *)
Lemma shr_spec (m N D e k : Z) :
  0 <= m -> 0 <= N < D -> 0 <= k ->
  exists m' low,
    shr (shr_record_of_loc m (loc_of N D)) e k =
      (shr_record_of_loc m' (loc_of (low * D + N) (2 ^ k * D)), e + k) /\
    0 <= low < 2 ^ k /\ m = m' * 2 ^ k + low /\ 0 <= m'.
Proof.
  intros Hm HN Hk.
  destruct k as [|p|p]; [| |lia].
  - exists m, 0. cbn [shr]. rewrite Z.add_0_r. change (2 ^ 0) with 1.
    replace (0 * D + N) with N by ring. replace (1 * D) with D by ring.
    repeat split; lia.
  - destruct (iter_pos_shr_1_spec p (shr_record_of_loc m (loc_of N D)) N D)
      as (low & Hlow & E & P & L).
    + now rewrite shr_record_of_loc_m.
    + exact HN.
    + apply loc_of_shr_record_of_loc.
    + rewrite shr_record_of_loc_m in E.
      exists (shr_m (SpecFloat.iter_pos shr_1 p (shr_record_of_loc m (loc_of N D)))), low.
      cbn [shr]. repeat split; try tauto; try lia.
      f_equal. rewrite <- L.
      generalize (SpecFloat.iter_pos shr_1 p (shr_record_of_loc m (loc_of N D))).
      intros [m0 [] []]; reflexivity.
Qed.

Lemma round_nearest_even_spec (m N D : Z) :
  0 <= N < D ->
  m <= round_nearest_even m (loc_of N D) <= m + 1 /\
  2 * Z.abs (round_nearest_even m (loc_of N D) * D - (m * D + N)) <= D.
Proof.
  intros HN. unfold round_nearest_even, loc_of.
  destruct (Z.eqb_spec N 0); [split; lia|].
  destruct (Z.compare_spec (2 * N) D); [destruct (Z.even m)| |]; split; lia.
Qed.

Lemma shr_2_53 (e : Z) :
  shr (shr_record_of_loc (2 ^ 53) loc_Exact) e 1 =
    (shr_record_of_loc (2 ^ 52) loc_Exact, e + 1).
Proof. reflexivity. Qed.

Lemma fexp_normal (x : Z) : -1074 <= x - 53 -> fexp prec emax x = x - 53.
Proof. unfold fexp, emin, prec, emax. lia. Qed.

(** Rounding to nearest even of the value [(m + N / D) * 2^e] whose integer
    part [m] has [d >= 53] bits, in the range of the normal numbers. *)
Lemma binary_round_aux_spec (s : bool) (m e N D d : Z) :
  53 <= d -> 2 ^ (d - 1) <= m < 2 ^ d ->
  -1074 <= d + e - 53 -> d + e - 53 < 971 ->
  0 <= N < D ->
  exists (mr : positive) (er : Z),
    binary_round_aux prec emax s m e (loc_of N D) = S754_finite s mr er /\
    2 ^ 52 <= Z.pos mr < 2 ^ 53 /\
    d + e - 53 <= er <= d + e - 52 /\
    2 * Z.abs (Z.pos mr * 2 ^ (er - e) * D - (m * D + N)) <= 2 ^ (d - 53) * D.
Proof.
  intros Hd Hm Hlo Hhi HN.
  assert (Hpos : 0 < 2 ^ (d - 1)) by (apply Z.pow_pos_nonneg; lia).
  unfold binary_round_aux, shr_fexp.
  rewrite (Zdigits2_unique m d Hm) by lia.
  rewrite fexp_normal by lia.
  replace (d + e - 53 - e) with (d - 53) by ring.
  destruct (shr_spec m N D e (d - 53)) as (m' & low & -> & Hlow & Em & Hm');
    try lia.
  set (k := d - 53) in *.
  assert (Hk : 0 < 2 ^ k) by (apply Z.pow_pos_nonneg; lia).
  assert (Hdk : 2 ^ (d - 1) = 2 ^ 52 * 2 ^ k /\ 2 ^ d = 2 ^ 53 * 2 ^ k).
  { split; rewrite <- Z.pow_add_r by lia; f_equal; lia. }
  destruct Hdk as [Hd1 Hd2]. rewrite Hd1, Hd2 in Hm.
  assert (Hm52 : 2 ^ 52 <= m' < 2 ^ 53) by nia.
  rewrite shr_record_of_loc_m, loc_of_shr_record_of_loc.
  destruct (round_nearest_even_spec m' (low * D + N) (2 ^ k * D))
    as [Hr Hnear]; [nia|].
  set (m'' := round_nearest_even m' (loc_of (low * D + N) (2 ^ k * D))) in *.
  replace (m' * (2 ^ k * D) + (low * D + N)) with (m * D + N) in Hnear
    by (rewrite Em; ring).
  destruct (Z.eq_dec m'' (2 ^ 53)) as [E|E].
  - rewrite E.
    replace (Zdigits2 (2 ^ 53)) with 54 by reflexivity.
    rewrite fexp_normal by lia.
    replace (54 + (e + k) - 53 - (e + k)) with 1 by ring.
    rewrite shr_2_53, shr_record_of_loc_m.
    change (2 ^ 52) with (Z.pos 4503599627370496) at 1. cbv beta iota.
    replace (e + k + 1 <=? emax - prec) with true
      by (symmetry; apply Z.leb_le; unfold emax, prec; lia).
    exists 4503599627370496%positive, (e + k + 1). split; [reflexivity|].
    split; [change (2 ^ 52) with 4503599627370496;
            change (2 ^ 53) with 9007199254740992; lia|].
    split; [lia|].
    replace (e + k + 1 - e) with (k + 1) by ring.
    rewrite Z.pow_add_r by lia. change (2 ^ 1) with 2.
    rewrite E in Hnear.
    replace (Z.pos 4503599627370496 * (2 ^ k * 2) * D)
      with (2 ^ 53 * (2 ^ k * D))
      by (change (2 ^ 53) with (2 * 4503599627370496); ring).
    exact Hnear.
  - assert (Hm'' : 2 ^ 52 <= m'' < 2 ^ 53) by lia.
    rewrite (Zdigits2_unique m'' 53) by (change (53 - 1) with 52; lia).
    rewrite fexp_normal by lia.
    replace (53 + (e + k) - 53 - (e + k)) with 0 by ring.
    cbn [shr fst snd]. rewrite shr_record_of_loc_m.
    destruct m'' as [|mr|mr] eqn:Emr; try lia.
    replace (e + k <=? emax - prec) with true
      by (symmetry; apply Z.leb_le; unfold emax, prec; lia).
    exists mr, (e + k). split; [reflexivity|].
    split; [lia|]. split; [lia|].
    replace (e + k - e) with k by ring.
    replace (Z.pos mr * 2 ^ k * D) with (Z.pos mr * (2 ^ k * D)) by ring.
    exact Hnear.
Qed.

Lemma new_location_loc_of (D N : Z) :
  0 <= N < D -> new_location D N = loc_of N D.
Proof.
  intros H. unfold new_location, new_location_even, new_location_odd, loc_of.
  destruct (Z.even D) eqn:Ev; destruct (Z.eqb_spec N 0); try reflexivity.
  f_equal.
  assert (Hodd : Z.odd D = true) by (rewrite <- Z.negb_even, Ev; reflexivity).
  apply Z.odd_spec in Hodd. destruct Hodd as [c Hc].
  destruct (Z.compare_spec (2 * N + 1) D), (Z.compare_spec (2 * N) D);
    try reflexivity; lia.
Qed.

Lemma Pos_iter_xO (p k : positive) :
  Z.pos (Pos.iter xO p k) = Z.pos p * 2 ^ Z.pos k.
Proof.
  induction k as [|k IH] using Pos.peano_ind.
  - cbn [Pos.iter]. rewrite (Pos2Z.inj_xO p). change (2 ^ 1) with 2. ring.
  - rewrite Pos.iter_succ, Pos2Z.inj_xO, IH, Pos2Z.inj_succ, Z.pow_succ_r by lia.
    ring.
Qed.

(** ** Powers of two as real numbers *)

Lemma pow2R_pos (e : Z) : (0 < powerRZ 2 e)%R.
Proof. apply powerRZ_lt. lra. Qed.

Lemma pow2R_add (a b : Z) :
  powerRZ 2 (a + b) = (powerRZ 2 a * powerRZ 2 b)%R.
Proof. apply powerRZ_add. lra. Qed.

Lemma pow2R_IZR (k : Z) : 0 <= k -> powerRZ 2 k = IZR (2 ^ k).
Proof.
  intros H. destruct k as [|p|p]; [reflexivity| |lia].
  symmetry. apply (Zpower_pos_powerRZ 2 p).
Qed.

Lemma Rabs_le_between (x y : R) : (Rabs x <= y -> - y <= x <= y)%R.
Proof. unfold Rabs. destruct (Rcase_abs x); lra. Qed.

(** ** Rounding, in real numbers *)

(** The float that [binary_round_aux] returns for [(m + N / D) * 2^e] is
    within [2^-53] of it, relatively. *)
Lemma binary_round_aux_rel (m e N D d : Z) :
  53 <= d -> 2 ^ (d - 1) <= m < 2 ^ d ->
  -1074 <= d + e - 53 -> d + e - 53 < 971 ->
  0 <= N < D ->
  exists (mr : positive) (er : Z),
    binary_round_aux prec emax false m e (loc_of N D) =
      S754_finite false mr er /\
    2 ^ 52 <= Z.pos mr < 2 ^ 53 /\
    d + e - 53 <= er <= d + e - 52 /\
    (Rabs (IZR (Z.pos mr) * powerRZ 2 er * IZR D
           - IZR (m * D + N) * powerRZ 2 e)
     <= IZR (m * D + N) * powerRZ 2 e / 2 ^ 53)%R.
Proof.
  intros Hd Hm Hlo Hhi HN.
  destruct (binary_round_aux_spec false m e N D d Hd Hm Hlo Hhi HN)
    as (mr & er & E & Hmr & Her & Hnear).
  exists mr, er. repeat split; try tauto; try lia.
  set (j := er - e). assert (Hj : 0 <= j) by (unfold j; lia).
  fold j in Hnear.
  assert (Hk : 0 < 2 ^ (d - 53)) by (apply Z.pow_pos_nonneg; lia).
  assert (Hd1 : 2 ^ (d - 1) = 2 ^ 52 * 2 ^ (d - 53))
    by (rewrite <- Z.pow_add_r by lia; f_equal; lia).
  assert (HZ : 2 ^ 53 * Z.abs (Z.pos mr * 2 ^ j * D - (m * D + N))
               <= m * D + N).
  { change (2 ^ 53) with (2 ^ 52 * 2).
    assert (2 ^ 52 * 2 ^ (d - 53) * D <= m * D)
      by (apply Z.mul_le_mono_nonneg_r; lia).
    change (2 ^ 52) with 4503599627370496 in *. lia. }
  apply IZR_le in HZ.
  rewrite mult_IZR, abs_IZR, minus_IZR, !mult_IZR in HZ.
  change (2 ^ 53) with 9007199254740992 in HZ.
  replace er with (j + e) by (unfold j; ring).
  rewrite pow2R_add, pow2R_IZR by exact Hj.
  pose proof (pow2R_pos e) as HP. set (P := powerRZ 2 e) in *.
  replace (IZR (Z.pos mr) * (IZR (2 ^ j) * P) * IZR D - IZR (m * D + N) * P)%R
    with ((IZR (Z.pos mr) * IZR (2 ^ j) * IZR D - IZR (m * D + N)) * P)%R
    by ring.
  rewrite Rabs_mult, (Rabs_pos_eq P) by lra.
  replace (IZR (m * D + N) * P / 2 ^ 53)%R
    with (IZR (m * D + N) / 2 ^ 53 * P)%R by (unfold Rdiv; ring).
  apply Rmult_le_compat_r; [lra|].
  lra.
Qed.

(** ** The operations of the rate *)

(** A count below 2^53 becomes the float that stands for it. *)
Lemma float_of_int_exact (n : Z) :
  0 < n < 2 ^ 53 ->
  exists (m : positive) (e : Z),
    Prim2SF (float_of_int n) = S754_finite false m e /\
    2 ^ 52 <= Z.pos m < 2 ^ 53 /\ -52 <= e <= 1 /\
    (IZR (Z.pos m) * powerRZ 2 e = IZR n)%R.
Proof.
  intros Hn. unfold float_of_int.
  rewrite of_uint63_spec, Uint63.of_Z_spec.
  rewrite Z.mod_small
    by (change wB with (2 ^ 63); change (2 ^ 53) with 9007199254740992 in Hn;
        change (2 ^ 63) with 9223372036854775808; lia).
  destruct n as [|p|p]; try lia.
  cbn [binary_normalize]. unfold binary_round.
  pose proof (digits2_pos_bounds p) as Hp.
  set (d := Z.pos (digits2_pos p)) in *.
  assert (Hd : 1 <= d <= 53).
  { split; [unfold d; lia|].
    destruct (Z_le_gt_dec d 53) as [H|H]; [exact H|].
    assert (2 ^ 53 <= 2 ^ (d - 1)) by (apply Z.pow_le_mono_r; lia). lia. }
  rewrite Z.add_0_r, fexp_normal by lia.
  assert (Hal : exists mz, shl_align p 0 (d - 53) = (mz, d - 53) /\
                           Z.pos mz = Z.pos p * 2 ^ (53 - d)).
  { unfold shl_align. rewrite Z.sub_0_r.
    destruct (d - 53) as [|q|q] eqn:Eq; try lia.
    - exists p. replace (53 - d) with 0 by lia. split; [reflexivity|].
      change (2 ^ 0) with 1. lia.
    - exists (Pos.iter xO p q). split; [reflexivity|].
      rewrite Pos_iter_xO. f_equal. f_equal. lia. }
  destruct Hal as (mz & -> & Hmz).
  assert (Hsh : 0 < 2 ^ (53 - d)) by (apply Z.pow_pos_nonneg; lia).
  assert (H52 : 2 ^ 52 = 2 ^ (d - 1) * 2 ^ (53 - d))
    by (rewrite <- Z.pow_add_r by lia; f_equal; lia).
  assert (H53 : 2 ^ 53 = 2 ^ d * 2 ^ (53 - d))
    by (rewrite <- Z.pow_add_r by lia; f_equal; lia).
  assert (Hmz' : 2 ^ (53 - 1) <= Z.pos mz < 2 ^ 53).
  { change (53 - 1) with 52. rewrite H52, H53, Hmz. nia. }
  change loc_Exact with (loc_of 0 1).
  destruct (binary_round_aux_spec false (Z.pos mz) (d - 53) 0 1 53)
    as (mr & er & E & Hmr & Her & Hnear); try lia.
  exists mr, er. split; [exact E|]. split; [exact Hmr|]. split; [lia|].
  set (j := er - (d - 53)) in *. assert (Hj : 0 <= j) by (unfold j; lia).
  change (2 ^ (53 - 53)) with 1 in Hnear.
  assert (Hex : Z.pos mr * 2 ^ j = Z.pos p * 2 ^ (53 - d)) by lia.
  replace er with (j + (d - 53)) by (unfold j; ring).
  rewrite pow2R_add, pow2R_IZR by exact Hj.
  rewrite <- Rmult_assoc, <- mult_IZR, Hex, mult_IZR, <- pow2R_IZR by lia.
  rewrite Rmult_assoc, <- pow2R_add.
  replace (53 - d + (d - 53)) with 0 by ring. cbn [powerRZ]. ring.
Qed.


(** The quotient of two normal floats is within [2^-53] of the quotient of
    their values, relatively. *)
Lemma SF64div_rel (mx my : positive) (ex ey : Z) :
  2 ^ 52 <= Z.pos mx < 2 ^ 53 -> 2 ^ 52 <= Z.pos my < 2 ^ 53 ->
  -400 <= ex <= 400 -> -400 <= ey <= 400 ->
  exists (mr : positive) (er : Z),
    SF64div (S754_finite false mx ex) (S754_finite false my ey) =
      S754_finite false mr er /\
    2 ^ 52 <= Z.pos mr < 2 ^ 53 /\
    ex - ey - 53 <= er <= ex - ey - 51 /\
    (Rabs (IZR (Z.pos mr) * powerRZ 2 er * (IZR (Z.pos my) * powerRZ 2 ey)
           - IZR (Z.pos mx) * powerRZ 2 ex)
     <= IZR (Z.pos mx) * powerRZ 2 ex / 2 ^ 53)%R.
Proof.
  intros Hx Hy Hex Hey.
  unfold SF64div, SFdiv, SFdiv_core_binary. cbn [xorb].
  rewrite (Zdigits2_unique (Z.pos mx) 53), (Zdigits2_unique (Z.pos my) 53)
    by (change (53 - 1) with 52; lia).
  rewrite fexp_normal by lia.
  rewrite Z.min_l by lia.
  replace (ex - ey - (53 + ex - (53 + ey) - 53)) with 53 by ring.
  cbv beta iota.
  rewrite Z.shiftl_mul_pow2 by lia.
  pose proof (Z_div_mod (Z.pos mx * 2 ^ 53) (Z.pos my) eq_refl) as Hdiv.
  destruct (Z.div_eucl (Z.pos mx * 2 ^ 53) (Z.pos my)) as [q r].
  destruct Hdiv as [Eq Hr].
  replace (53 + ex - (53 + ey) - 53) with (ex - ey - 53) by ring.
  rewrite new_location_loc_of by exact Hr.
  assert (Hq : 2 ^ 52 <= q < 2 ^ 54).
  { change (2 ^ 52) with 4503599627370496 in *.
    change (2 ^ 53) with 9007199254740992 in *.
    change (2 ^ 54) with 18014398509481984. nia. }
  assert (Hd : exists d, 53 <= d <= 54 /\ 2 ^ (d - 1) <= q < 2 ^ d).
  { destruct (Z_lt_le_dec q (2 ^ 53)); [exists 53|exists 54];
      (split; [lia|]); [change (53 - 1) with 52|change (54 - 1) with 53]; lia. }
  destruct Hd as (d & Hd & Hqd).
  destruct (binary_round_aux_rel q (ex - ey - 53) r (Z.pos my) d)
    as (mr & er & E & Hmr & Her & Hrel); try lia.
  exists mr, er. split; [exact E|]. split; [exact Hmr|]. split; [lia|].
  replace (q * Z.pos my + r) with (Z.pos mx * 2 ^ 53) in Hrel by lia.
  assert (HW : (IZR (Z.pos mx * 2 ^ 53) * powerRZ 2 (ex - ey - 53) *
                powerRZ 2 ey = IZR (Z.pos mx) * powerRZ 2 ex)%R).
  { rewrite mult_IZR, <- pow2R_IZR by lia.
    rewrite !Rmult_assoc, <- !pow2R_add. do 2 f_equal. ring. }
  pose proof (pow2R_pos ey) as HP.
  rewrite <- HW.
  replace (IZR (Z.pos mr) * powerRZ 2 er * (IZR (Z.pos my) * powerRZ 2 ey) -
           IZR (Z.pos mx * 2 ^ 53) * powerRZ 2 (ex - ey - 53) * powerRZ 2 ey)%R
    with ((IZR (Z.pos mr) * powerRZ 2 er * IZR (Z.pos my) -
           IZR (Z.pos mx * 2 ^ 53) * powerRZ 2 (ex - ey - 53)) *
          powerRZ 2 ey)%R by ring.
  rewrite Rabs_mult, (Rabs_pos_eq (powerRZ 2 ey)) by lra.
  replace (IZR (Z.pos mx * 2 ^ 53) * powerRZ 2 (ex - ey - 53) * powerRZ 2 ey
           / 2 ^ 53)%R
    with (IZR (Z.pos mx * 2 ^ 53) * powerRZ 2 (ex - ey - 53) / 2 ^ 53 *
          powerRZ 2 ey)%R by (unfold Rdiv; ring).
  apply Rmult_le_compat_r; [lra|exact Hrel].
Qed.

(** The product of two normal floats is within [2^-53] of the product of
    their values, relatively. *)
Lemma SF64mul_rel (mx my : positive) (ex ey : Z) :
  2 ^ 52 <= Z.pos mx < 2 ^ 53 -> 2 ^ 52 <= Z.pos my < 2 ^ 53 ->
  -400 <= ex <= 400 -> -400 <= ey <= 400 ->
  exists (mr : positive) (er : Z),
    SF64mul (S754_finite false mx ex) (S754_finite false my ey) =
      S754_finite false mr er /\
    2 ^ 52 <= Z.pos mr < 2 ^ 53 /\
    ex + ey + 52 <= er <= ex + ey + 54 /\
    (Rabs (IZR (Z.pos mr) * powerRZ 2 er
           - IZR (Z.pos mx) * powerRZ 2 ex * (IZR (Z.pos my) * powerRZ 2 ey))
     <= IZR (Z.pos mx) * powerRZ 2 ex * (IZR (Z.pos my) * powerRZ 2 ey)
        / 2 ^ 53)%R.
Proof.
  intros Hx Hy Hex Hey.
  unfold SF64mul, SFmul. cbn [xorb].
  assert (Hq : 2 ^ 104 <= Z.pos (mx * my) < 2 ^ 106).
  { rewrite Pos2Z.inj_mul.
    change (2 ^ 52) with 4503599627370496 in *.
    change (2 ^ 53) with 9007199254740992 in *.
    change (2 ^ 104) with (4503599627370496 * 4503599627370496).
    change (2 ^ 106) with (9007199254740992 * 9007199254740992). nia. }
  assert (Hd : exists d, 105 <= d <= 106 /\
                         2 ^ (d - 1) <= Z.pos (mx * my) < 2 ^ d).
  { destruct (Z_lt_le_dec (Z.pos (mx * my)) (2 ^ 105));
      [exists 105|exists 106]; (split; [lia|]);
      [change (105 - 1) with 104|change (106 - 1) with 105]; lia. }
  destruct Hd as (d & Hd & Hqd).
  change loc_Exact with (loc_of 0 1).
  destruct (binary_round_aux_rel (Z.pos (mx * my)) (ex + ey) 0 1 d)
    as (mr & er & E & Hmr & Her & Hrel); try lia.
  exists mr, er. split; [exact E|]. split; [exact Hmr|]. split; [lia|].
  rewrite Z.mul_1_r, Z.add_0_r, Rmult_1_r in Hrel.
  rewrite Pos2Z.inj_mul, mult_IZR, pow2R_add in Hrel.
  replace (IZR (Z.pos mx) * powerRZ 2 ex * (IZR (Z.pos my) * powerRZ 2 ey))%R
    with (IZR (Z.pos mx) * IZR (Z.pos my) * (powerRZ 2 ex * powerRZ 2 ey))%R
    by ring.
  exact Hrel.
Qed.

(** [nearest_hundredths m e] is an integer nearest to [100 * m * 2^e]. *)
Lemma nearest_hundredths_spec (m e : Z) :
  0 < m ->
  0 <= nearest_hundredths m e /\
  (Rabs (IZR (nearest_hundredths m e) - 100 * (IZR m * powerRZ 2 e))
   <= 1 / 2)%R.
Proof.
  intros Hm. unfold nearest_hundredths.
  destruct (Z.leb_spec 0 e) as [He|He].
  - assert (0 < 2 ^ e) by (apply Z.pow_pos_nonneg; lia).
    split; [nia|].
    rewrite !mult_IZR, pow2R_IZR by exact He.
    replace (IZR m * 100 * IZR (2 ^ e) - 100 * (IZR m * IZR (2 ^ e)))%R
      with 0%R by ring.
    rewrite Rabs_R0. lra.
  - assert (Hd : 0 < 2 ^ (- e)) by (apply Z.pow_pos_nonneg; lia).
    pose proof (Z.div_mod (m * 100) (2 ^ (- e)) ltac:(lia)) as Hdm.
    pose proof (Z.mod_pos_bound (m * 100) (2 ^ (- e)) Hd) as Hr.
    assert (Hq : 0 <= m * 100 / 2 ^ (- e)) by (apply Z.div_pos; lia).
    cbv zeta.
    set (d := 2 ^ (- e)) in *. set (q := m * 100 / d) in *.
    set (r := (m * 100) mod d) in *.
    set (n := if 2 * r <? d then q
              else if d <? 2 * r then q + 1
              else if Z.even q then q else q + 1).
    assert (Hn : 0 <= n /\ 2 * Z.abs (n * d - m * 100) <= d).
    { unfold n. destruct (Z.ltb_spec (2 * r) d); [split; lia|].
      destruct (Z.ltb_spec d (2 * r)); [split; lia|].
      destruct (Z.even q); split; lia. }
    destruct Hn as [Hn0 Hn]. split; [exact Hn0|].
    apply IZR_le in Hn.
    rewrite mult_IZR, abs_IZR, minus_IZR, !mult_IZR in Hn.
    assert (HP : (powerRZ 2 e * IZR d = 1)%R).
    { unfold d. rewrite <- pow2R_IZR, <- pow2R_add by lia.
      replace (e + - e) with 0 by ring. reflexivity. }
    pose proof (pow2R_pos e) as HP0. set (P := powerRZ 2 e) in *.
    replace (IZR n - 100 * (IZR m * P))%R
      with ((IZR n * IZR d - IZR m * 100) * P)%R
      by (replace (IZR n) with (IZR n * (P * IZR d))%R at 2
            by (rewrite HP; ring); ring).
    rewrite Rabs_mult, (Rabs_pos_eq P) by lra.
    replace (1 / 2)%R with (IZR d / 2 * P)%R by (rewrite <- HP; field).
    apply Rmult_le_compat_r; lra.
Qed.

(** ** The rate *)

Lemma Prim2SF_100 :
  Prim2SF 100%float = S754_finite false 7036874417766400 (-46).
Proof. reflexivity. Qed.

Lemma value_100 : (IZR (Z.pos 7036874417766400) * powerRZ 2 (-46) = 100)%R.
Proof.
  change (Z.pos 7036874417766400) with (100 * 2 ^ 46).
  rewrite mult_IZR, <- pow2R_IZR, Rmult_assoc, <- pow2R_add by lia.
  change (46 + -46) with 0. cbn [powerRZ]. ring.
Qed.

(** A positive count over 100, as a float. *)
Lemma hundredths_as_float (n : Z) :
  0 <= n < 2 ^ 53 ->
  (Rabs (100 * float_value (float_of_int n / 100) - IZR n)
   <= IZR n / 2 ^ 53)%R.
Proof.
  intros Hn. destruct (Z.eq_dec n 0) as [->|Hn0].
  - replace (float_value (float_of_int 0 / 100)) with 0%R by reflexivity.
    rewrite Rmult_0_r, Rminus_0_r, Rabs_R0. lra.
  - destruct (float_of_int_exact n ltac:(lia)) as (m & e & E & Hm & He & V).
    unfold float_value. rewrite FloatAxioms.div_spec, E, Prim2SF_100.
    destruct (SF64div_rel m 7036874417766400 e (-46) Hm)
      as (mr & er & E' & Hmr & Her & Hrel);
      [change (2 ^ 52) with 4503599627370496;
       change (2 ^ 53) with 9007199254740992; lia|lia|lia|].
    rewrite E'. cbn [SF2R]. rewrite value_100, V in Hrel.
    replace (100 * (IZR (Z.pos mr) * powerRZ 2 er) - IZR n)%R
      with (IZR (Z.pos mr) * powerRZ 2 er * 100 - IZR n)%R by ring.
    exact Hrel.
Qed.

(** The rate the handler computes from the two counts is [n / 100] as a
    float, for a whole number [n] of hundredths that is nearest to
    [present / total * 100]. *)
Lemma rate_of_rounds (present total : Z) :
  0 < total < 2 ^ 53 -> 0 <= present < 2 ^ 37 ->
  exists n : Z,
    0 <= n < 2 ^ 53 /\
    rounds_percentage n present total = true /\
    rate_of present total = (float_of_int n / 100)%float.
Proof.
  intros Ht Hp. unfold rate_of.
  replace (total >? 0) with true by (symmetry; apply Z.gtb_lt; lia).
  cbn [round2 as_float]. unfold truediv.
  destruct (float_of_int_exact total Ht) as (mt & et & Et & Hmt & Het & Vt).
  destruct (Z.eq_dec present 0) as [->|Hp0].
  - exists 0. split; [change (2 ^ 53) with 9007199254740992; lia|].
    split; [unfold rounds_percentage; apply Z.leb_le; lia|].
    assert (E0 : (float_of_int 0 / float_of_int total)%float = 0%float).
    { apply Prim2SF_inj. rewrite FloatAxioms.div_spec, Et. reflexivity. }
    rewrite E0. reflexivity.
  - destruct (float_of_int_exact present) as (mp & ep & Ep & Hmp & Hep & Vp).
    { change (2 ^ 37) with 137438953472 in Hp.
      change (2 ^ 53) with 9007199254740992. lia. }
    destruct (SF64div_rel mp mt ep et Hmp Hmt)
      as (mq & eq & Eq & Hmq & Heq & Hq); [lia|lia|].
    destruct (SF64mul_rel mq 7036874417766400 eq (-46) Hmq)
      as (mx & ex & Ex & Hmx & Hex & Hx);
      [change (2 ^ 52) with 4503599627370496;
       change (2 ^ 53) with 9007199254740992; lia|lia|lia|].
    assert (EX : Prim2SF (float_of_int present / float_of_int total * 100) =
                 S754_finite false mx ex).
    { rewrite FloatAxioms.mul_spec, FloatAxioms.div_spec, Ep, Et, Eq,
        Prim2SF_100. exact Ex. }
    unfold float_round2. rewrite EX.
    destruct (nearest_hundredths_spec (Z.pos mx) ex ltac:(lia)) as [Hn0 Hn].
    set (n := nearest_hundredths (Z.pos mx) ex) in *.
    exists n.
    rewrite value_100 in Hx. rewrite Vp, Vt in Hq.
    pose proof (pow2R_pos eq) as HPq.
    assert (HQ0 : (0 < IZR (Z.pos mq) * powerRZ 2 eq)%R).
    { apply Rmult_lt_0_compat; [apply IZR_lt; lia|exact HPq]. }
    set (Q := (IZR (Z.pos mq) * powerRZ 2 eq)%R) in *.
    set (X := (IZR (Z.pos mx) * powerRZ 2 ex)%R) in *.
    assert (HT : (1 <= IZR total)%R) by (apply IZR_le; lia).
    assert (HP : (1 <= IZR present <= 137438953471)%R).
    { change (2 ^ 37) with 137438953472 in Hp.
      split; apply IZR_le; lia. }
    apply Rabs_le_between in Hq, Hx, Hn.
    set (T := IZR total) in *. set (P := IZR present) in *.
    set (u := (/ 2 ^ 53)%R) in *.
    assert (Hu : (u = / 9007199254740992)%R) by (unfold u; lra).
    unfold Rdiv in Hq, Hx. fold u in Hq, Hx.
    (* everything multiplied by the total *)
    assert (HX0 : (0 <= X)%R).
    { unfold X. apply Rmult_le_pos; [apply IZR_le; lia|].
      left. apply pow2R_pos. }
    assert (Hu0 : (0 < u)%R) by lra.
    assert (HXT : (- (100 * u * (Q * T)) <= X * T - 100 * (Q * T)
                   <= 100 * u * (Q * T))%R) by (split; nra).
    assert (HNT : (- (T / 2) <= IZR n * T - 100 * (X * T) <= T / 2)%R)
      by (split; nra).
    assert (HXle : (X <= X * T)%R) by nra.
    set (QT := (Q * T)%R) in *. set (XT := (X * T)%R) in *.
    set (NT := (IZR n * T)%R) in *.
    subst u.
    assert (Hgoal : (- (T + 1) < 2 * (NT - 10000 * P) < T + 1)%R)
      by (split; lra).
    assert (Hnb : (IZR n < 9007199254740992)%R) by lra.
    apply lt_IZR in Hnb.
    split; [change (2 ^ 53) with 9007199254740992; lia|].
    split; [|reflexivity].
    unfold rounds_percentage. apply Z.leb_le.
    destruct Hgoal as [G1 G2].
    unfold NT, T, P in G1, G2.
    rewrite <- mult_IZR in G1, G2.
    replace 10000%R with (IZR 10000) in G1, G2 by reflexivity.
    replace 2%R with (IZR 2) in G1, G2 by reflexivity.
    replace 1%R with (IZR 1) in G1, G2 by reflexivity.
    rewrite <- mult_IZR, <- minus_IZR, <- mult_IZR, <- plus_IZR in G1, G2.
    rewrite <- opp_IZR in G1.
    apply lt_IZR in G1, G2. lia.
Qed.

(** C5.  The statistics handler returns, on every database and leaving it as
    it was: total_registered, the number of stored Persons; present_today,
    the number of attendance records whose date is today's day key;
    absent_today = max(0, total_registered - present_today); and
    attendance_rate, which is 0 when total_registered is 0 and otherwise
    (with fewer than 2^53 Persons and fewer than 2^37 records of today) the
    float for [n / 100], where the whole number [n] of hundredths is
    nearest to present_today / total_registered * 100:
    [|n / 100 - 100 * present / total| <= 1 / 200].  The float is the
    quotient of the integer [n] by 100 and differs from [n / 100] by at
    most [2^-53], relatively. *)
Theorem computeStats_derived (now : datetime) (db : Store) :
  let total := Z.of_nat (List.length (persons db)) in
  let present :=
    Z.of_nat (List.length
      (filter (on_date (strftime_Ymd now)) (attendance db))) in
  exists stats : AttendanceStats,
    run (get_attendance_stats now) db = (Returned stats, db) /\
    AttendanceStats.total_registered stats = total /\
    AttendanceStats.present_today stats = present /\
    AttendanceStats.absent_today stats = Z.max 0 (total - present) /\
    (total = 0 -> AttendanceStats.attendance_rate stats = 0%float) /\
    (0 < total -> total < 2 ^ 53 -> present < 2 ^ 37 ->
     exists n : Z,
       rounds_percentage n present total = true /\
       AttendanceStats.attendance_rate stats =
         (float_of_int n / 100)%float /\
       (Rabs (100 * float_value (AttendanceStats.attendance_rate stats)
              - IZR n) <= IZR n / 2 ^ 53)%R).
Proof.
  intros total present.
  eexists. rewrite run_get_attendance_stats.
  split; [reflexivity|]. cbv zeta. simpl.
  rewrite count_any. fold total.
  change (count (on_date (strftime_Ymd now)) (attendance db)) with present.
  repeat split.
  - intros E. rewrite E. reflexivity.
  - intros Hpos Htotal Hpresent.
    destruct (rate_of_rounds present total)
      as (n & Hn & Hround & Hrate); [lia|unfold present; lia|].
    unfold rate_of in Hrate. rewrite Hrate.
    exists n. repeat split; auto.
    now apply hundredths_as_float.
Qed.

Lemma computeStats_derived_witness :
  exists (stats : AttendanceStats) (n : Z),
    run (get_attendance_stats local_0501) db_john_marked =
      (Returned stats, db_john_marked) /\
    AttendanceStats.total_registered stats = 2 /\
    AttendanceStats.present_today stats = 1 /\
    AttendanceStats.absent_today stats = 1 /\
    rounds_percentage n 1 2 = true /\
    AttendanceStats.attendance_rate stats = (float_of_int n / 100)%float /\
    (Rabs (100 * float_value (AttendanceStats.attendance_rate stats)
           - IZR n) <= IZR n / 2 ^ 53)%R.
Proof.
  destruct (computeStats_derived local_0501 db_john_marked)
    as (stats & Hrun & Ht & Hp & Ha & _ & Hr).
  destruct Hr as (n & Hround & Hrate & Hvalue); [reflexivity..|].
  exists stats, n. repeat split; assumption.
Defined.

(** The statistics of the spec's scenarios 2 and 4. *)
Example stats_one_of_one :
  fst (run (get_attendance_stats local_0501)
         (snd (serve (POST_attendance local_0500 "id-rec-1" utc_2330 local_0500
                        (seen "id-john" john)) db_john))) =
  Returned {| AttendanceStats.total_registered := 1;
              AttendanceStats.present_today := 1;
              AttendanceStats.absent_today := 0;
              AttendanceStats.attendance_rate := 100%float |}.
Proof. vm_compute. reflexivity. Qed.

Example stats_one_of_two :
  fst (run (get_attendance_stats local_0501) db_john_marked) =
  Returned {| AttendanceStats.total_registered := 2;
              AttendanceStats.present_today := 1;
              AttendanceStats.absent_today := 1;
              AttendanceStats.attendance_rate := 50%float |}.
Proof. vm_compute. reflexivity. Qed.

Example rate_one_of_three :
  float_round2 (truediv 1 3 * 100)%float = 0x1.0aa3d70a3d70ap+5%float.
Proof. vm_compute. reflexivity. Qed.

(** Up to 60 registered persons, the float the handler computes is the
    quotient by 100 of a whole number of hundredths nearest to the
    percentage: the one below it or the one above. *)
Example rate_rounds_percentage :
  forallb (fun c =>
    let q := 10000 * fst c / snd c in
    existsb (fun n =>
      rounds_percentage n (fst c) (snd c) &&
      PrimFloat.eqb (rate_of (fst c) (snd c)) (float_of_int n / 100))
      [q; q + 1]) (head_counts 60) = true.
Proof. vm_compute. reflexivity. Qed.

(** ** Deletion, as seen by the reads *)

(** C6.  After a delete of person P that succeeded, historyFor(P) is the
    empty sequence and, for every date key, listForDay returns no record
    whose person_id is P. *)
Theorem delete_then_reads_see_nothing
    (person_id : string) (db : Store) (message : string) (db' : Store) :
  run (delete_person person_id) db = (Returned message, db') ->
  historyFor person_id db' = Returned [] /\
  forall date_str, exists l,
    listForDay date_str db' = Returned l /\
    Forall (fun r => AttendanceRecord.person_id r <> person_id) l.
Proof.
  rewrite run_delete_person.
  destruct (existsb _ (persons db)); [|discriminate].
  intros H; injection H as _ <-.
  unfold historyFor, listForDay.
  rewrite run_get_person_attendance_history. cbn [fst attendance].
  rewrite (existsb_false_filter (of_person person_id))
    by apply filter_negb_none.
  split; [reflexivity|].
  intros date_str. rewrite run_get_attendance_by_date. cbn [fst attendance].
  eexists; split; [reflexivity|].
  apply Forall_forall. intros r Hr.
  apply In_firstn, filter_In in Hr. destruct Hr as [Hr _].
  apply filter_In in Hr. destruct Hr as [_ Hr].
  apply negb_true_iff in Hr. now apply String.eqb_neq in Hr.
Qed.

Lemma delete_then_reads_see_nothing_witness :
  historyFor "id-john"
    (snd (run (delete_person "id-john") db_john_marked)) = Returned [] /\
  forall date_str, exists l,
    listForDay date_str
      (snd (run (delete_person "id-john") db_john_marked)) = Returned l /\
    Forall (fun r => AttendanceRecord.person_id r <> "id-john"%string) l.
Proof.
  apply (delete_then_reads_see_nothing "id-john" db_john_marked
    "Person and their attendance records deleted successfully").
  reflexivity.
Defined.

(** ** The two clocks of a record *)

(** C9.  The record a successful mark creates has as timestamp the reading of
    the UTC clock and as date the day key of the reading of the local clock;
    so, whenever these two readings fall on different calendar days, the
    record's date is not the day key of its own timestamp. *)
Theorem mark_timestamp_utc_date_local
    (now_today : datetime) (uuid4 : string) (utcnow now_date : datetime)
    (attendance_data : AttendanceCreate) (db : Store)
    (r : AttendanceRecord) (db' : Store) :
  valid_datetime utcnow = true -> valid_datetime now_date = true ->
  run (mark_attendance now_today uuid4 utcnow now_date attendance_data) db =
    (Returned r, db') ->
  AttendanceRecord.timestamp r = utcnow /\
  AttendanceRecord.date r = strftime_Ymd now_date /\
  (calendar_day now_date <> calendar_day utcnow ->
   AttendanceRecord.date r <> strftime_Ymd (AttendanceRecord.timestamp r)).
Proof.
  intros Hu Hn. rewrite run_mark_attendance.
  destruct (negb _); [discriminate|].
  destruct (existsb _ (attendance db)); [discriminate|].
  intros H; injection H as <- _. simpl.
  repeat split.
  intros Hneq Heq. apply Hneq.
  now apply strftime_Ymd_inj.
Qed.

Lemma mark_timestamp_utc_date_local_witness :
  AttendanceRecord.timestamp
    (new_AttendanceRecord "id-rec-1" utc_2330 local_0500 (seen "id-john" john))
    = utc_2330 /\
  AttendanceRecord.date
    (new_AttendanceRecord "id-rec-1" utc_2330 local_0500 (seen "id-john" john))
    = "2024-03-11"%string /\
  (calendar_day local_0500 <> calendar_day utc_2330 ->
   AttendanceRecord.date
     (new_AttendanceRecord "id-rec-1" utc_2330 local_0500 (seen "id-john" john))
   <> strftime_Ymd (AttendanceRecord.timestamp
     (new_AttendanceRecord "id-rec-1" utc_2330 local_0500
        (seen "id-john" john)))).
Proof.
  apply (mark_timestamp_utc_date_local local_0500 "id-rec-1" utc_2330
           local_0500 (seen "id-john" john) db_john _
           (snd (run (mark_attendance local_0500 "id-rec-1" utc_2330
                        local_0500 (seen "id-john" john)) db_john)));
    reflexivity.
Defined.

(** ** History *)

Lemma newer_or_same_trans (a b c : AttendanceRecord) :
  newer_or_same a b -> newer_or_same b c -> newer_or_same a c.
Proof.
  unfold newer_or_same, datetime_leb; intros Hab Hbc.
  eapply tuple_leb_trans; eassumption.
Qed.

Lemma newer_or_same_total (a b : AttendanceRecord) :
  newer_or_same a b \/ newer_or_same b a.
Proof.
  unfold newer_or_same, datetime_leb.
  destruct (tuple_leb_total (timetuple (AttendanceRecord.timestamp a))
                            (timetuple (AttendanceRecord.timestamp b))); auto.
Qed.

Lemma insert_desc_perm (r : AttendanceRecord) (l : list AttendanceRecord) :
  Permutation (insert_desc r l) (r :: l).
Proof.
  induction l as [|x l IH]; simpl; [reflexivity|].
  destruct (datetime_leb _ _); [reflexivity|].
  rewrite IH. apply perm_swap.
Qed.

Lemma sort_timestamp_desc_perm (l : list AttendanceRecord) :
  Permutation (sort_timestamp_desc l) l.
Proof.
  induction l as [|r l IH]; simpl; [reflexivity|].
  rewrite insert_desc_perm. now constructor.
Qed.

Lemma insert_desc_sorted (r : AttendanceRecord) (l : list AttendanceRecord) :
  Sorted newer_or_same l -> Sorted newer_or_same (insert_desc r l).
Proof.
  induction l as [|x l IH]; simpl; intros Hs.
  - repeat constructor.
  - destruct (datetime_leb _ _) eqn:E.
    + constructor; [exact Hs|]. constructor. exact E.
    + inversion Hs as [|? ? Hs' Hhd]; subst.
      constructor; [auto|].
      assert (Hxr : newer_or_same x r).
      { destruct (newer_or_same_total x r) as [H|H]; [exact H|].
        unfold newer_or_same in H. congruence. }
      destruct l as [|y l]; simpl.
      * now constructor.
      * destruct (datetime_leb (AttendanceRecord.timestamp y)
                                (AttendanceRecord.timestamp r));
          constructor; [exact Hxr|].
        now inversion Hhd.
Qed.

Lemma sort_timestamp_desc_sorted (l : list AttendanceRecord) :
  StronglySorted newer_or_same (sort_timestamp_desc l).
Proof.
  apply Sorted_StronglySorted.
  - intros a b c. apply newer_or_same_trans.
  - induction l as [|r l IH]; simpl; [constructor|].
    now apply insert_desc_sorted.
Qed.

Lemma StronglySorted_app {A : Type} (R : A -> A -> Prop) (l1 l2 : list A) :
  StronglySorted R (l1 ++ l2)%list ->
  StronglySorted R l1 /\ forall a b, In a l1 -> In b l2 -> R a b.
Proof.
  induction l1 as [|x l1 IH]; simpl; intros H.
  - split; [constructor|easy].
  - inversion H as [|? ? Hs Hall]; subst.
    destruct (IH Hs) as [IH1 IH2].
    rewrite Forall_app in Hall. destruct Hall as [Hall1 Hall2].
    split; [now constructor|].
    intros a b [<-|Ha] Hb; [|auto].
    rewrite Forall_forall in Hall2. auto.
Qed.

(** C7.  On every database, historyFor(P) returns, without changing the
    database, records of P only, most recent timestamp first; it returns all
    of P's records when there are at most 100, and otherwise 100 of them
    such that every record left out is no more recent than any record
    returned. *)
Theorem history_most_recent_first (person_id : string) (db : Store) :
  exists l rest : list AttendanceRecord,
    run (get_person_attendance_history person_id) db = (Returned l, db) /\
    Permutation (l ++ rest)%list (filter (of_person person_id) (attendance db)) /\
    StronglySorted newer_or_same l /\
    (forall a b, In a l -> In b rest -> newer_or_same a b) /\
    List.length l =
      Nat.min 100 (List.length (filter (of_person person_id) (attendance db))).
Proof.
  set (mine := filter (of_person person_id) (attendance db)).
  exists (firstn 100 (sort_timestamp_desc mine)),
         (skipn 100 (sort_timestamp_desc mine)).
  split; [apply run_get_person_attendance_history|].
  pose proof (sort_timestamp_desc_sorted mine) as Hs.
  rewrite <- (firstn_skipn 100 (sort_timestamp_desc mine)) in Hs.
  apply StronglySorted_app in Hs. destruct Hs as [Hs1 Hs2].
  split; [|split; [exact Hs1|split; [exact Hs2|]]].
  - rewrite firstn_skipn. apply sort_timestamp_desc_perm.
  - rewrite length_firstn.
    now rewrite (Permutation_length (sort_timestamp_desc_perm mine)).
Qed.

(** Three marks of one person stored out of order come back most recent
    first. *)
Example history_out_of_order :
  historyFor "id-john"
    (mkStore []
       [new_AttendanceRecord "r2" utc_2331 local_0501 (seen "id-john" john);
        new_AttendanceRecord "r3" utc_next_day local_next_day (seen "id-john" john);
        new_AttendanceRecord "r0" utc_2330 local_0500 (seen "id-sarah" sarah);
        new_AttendanceRecord "r1" utc_2330 local_0500 (seen "id-john" john)]) =
  Returned
    [new_AttendanceRecord "r3" utc_next_day local_next_day (seen "id-john" john);
     new_AttendanceRecord "r2" utc_2331 local_0501 (seen "id-john" john);
     new_AttendanceRecord "r1" utc_2330 local_0500 (seen "id-john" john)].
Proof. vm_compute. reflexivity. Qed.

(** ** Sequences of requests *)

(** What a request can do to the database. *)
Lemma serve_cases (req : Request) (db : Store) :
  snd (serve req db) = db \/
  (exists u t d,
     req = POST_persons u t d /\
     existsb (has_employee_id (PersonCreate.employee_id d)) (persons db) = false /\
     snd (serve req db) =
       mkStore (persons db ++ [bson_person (new_Person u t d)])%list (attendance db)) \/
  (exists i,
     req = DELETE_persons_id i /\
     existsb (has_id i) (persons db) = true /\
     snd (serve req db) =
       mkStore (remove_first (has_id i) (persons db))
               (filter (fun r => negb (of_person i r)) (attendance db))) \/
  (exists n u t n' d,
     req = POST_attendance n u t n' d /\
     existsb (has_id (AttendanceCreate.person_id d)) (persons db) = true /\
     existsb (of_person_on_date (AttendanceCreate.person_id d) (strftime_Ymd n))
       (attendance db) = false /\
     snd (serve req db) =
       mkStore (persons db)
               (attendance db ++ [bson_record (new_AttendanceRecord u t n' d)])%list).
Proof.
  destruct req as [u t d| |i|i|n u t n' d|n|n|i|s];
    try (left; now apply serve_reads_only).
  - rewrite serve_POST_persons.
    destruct (existsb _ (persons db)) eqn:E; [now left|].
    right; left. now exists u, t, d.
  - rewrite serve_DELETE_persons_id.
    destruct (existsb _ (persons db)) eqn:E; [|now left].
    right; right; left. now exists i.
  - rewrite serve_POST_attendance.
    destruct (existsb _ (persons db)) eqn:E; [|now left].
    destruct (existsb _ (attendance db)) eqn:E'; [now left|].
    right; right; right. now exists n, u, t, n', d.
Qed.

Lemma serve_all_invariant (P : Store -> Prop) :
  (forall req db, P db -> P (snd (serve req db))) ->
  forall reqs db, P db -> P (snd (serve_all reqs db)).
Proof.
  intros Hstep reqs; induction reqs as [|req reqs IH]; intros db Hdb; simpl.
  - exact Hdb.
  - specialize (Hstep req db Hdb).
    destruct (serve req db) as [o db1]. simpl in Hstep.
    specialize (IH db1 Hstep).
    now destruct (serve_all reqs db1).
Qed.

Lemma serve_dates_server_assigned (req : Request) (db : Store) :
  dates_server_assigned db -> dates_server_assigned (snd (serve req db)).
Proof.
  intros H.
  destruct (serve_cases req db)
    as [E|[(u & t & d & _ & _ & E)|[(i & _ & _ & E)|(n & u & t & n' & d & _ & _ & _ & E)]]];
    rewrite E; clear E; [exact H|exact H| |]; intros r; simpl.
  - intros Hr. apply filter_In in Hr. now apply H.
  - rewrite in_app_iff. intros [Hr|[<-|[]]]; [now apply H|].
    now exists n'.
Qed.

(** ** Attendance by date *)

Lemma firstn_all_le {A : Type} (n : nat) (l : list A) :
  (List.length l <= n)%nat -> firstn n l = l.
Proof. apply firstn_all2. Qed.

(** The handler is capped: with 1001 records on one day it returns 1000 of
    them, so not all the stored records of that day. *)
Lemma by_date_capped_counterexample :
  listForDay "2024-03-11" db_crowd =
    Returned (firstn 1000
      (filter (on_date "2024-03-11") (attendance db_crowd))) /\
  List.length (firstn 1000
      (filter (on_date "2024-03-11") (attendance db_crowd))) = 1000%nat /\
  List.length (filter (on_date "2024-03-11") (attendance db_crowd)) = 1001%nat.
Proof.
  split; [unfold listForDay; now rewrite run_get_attendance_by_date|].
  assert (E : List.length
                (filter (on_date "2024-03-11") (attendance db_crowd))
              = 1001%nat) by (vm_compute; reflexivity).
  split; [|exact E].
  rewrite length_firstn, E. reflexivity.
Qed.

(** C10, as amended.  The attendance-by-date handler takes any string as
    date key, changes nothing and, on a storage that answers, always
    returns: the stored records whose date equals the string, in stored
    order, cut off after the first 1000, hence exactly those records when
    there are at most 1000.  When no stored record carries the string as
    its date the answer is the empty sequence; on every database reached
    from the empty one this is so for each string that is not a formatted
    day key.  On a storage whose call raises, the only failure is a 500. *)
Theorem by_date_any_string (date_str : string) (db : Store) :
  let matching := filter (on_date date_str) (attendance db) in
  run (get_attendance_by_date date_str) db =
    (Returned (firstn 1000 matching), db) /\
  (forall r, In r matching <->
             In r (attendance db) /\ AttendanceRecord.date r = date_str) /\
  ((List.length matching <= 1000)%nat -> firstn 1000 matching = matching) /\
  (~ In date_str (map AttendanceRecord.date (attendance db)) ->
   firstn 1000 matching = []) /\
  (forall reqs,
     (forall t, date_str <> strftime_Ymd t) ->
     listForDay date_str (snd (serve_all reqs empty_db)) = Returned []) /\
  (forall o db',
     runs (get_attendance_by_date date_str) db o db' ->
     db' = db /\
     (o = Returned (firstn 1000 matching) \/
      exists s, o = Raised (HTTPException 500
        ("Error fetching attendance for date: " ++ s)%string))).
Proof.
  intros matching. unfold matching.
  split; [apply run_get_attendance_by_date|].
  split.
  { intros r. rewrite filter_In. unfold on_date. now rewrite String.eqb_eq. }
  split; [apply firstn_all_le|].
  split.
  { intros Hnot.
    rewrite (existsb_false_filter (on_date date_str)); [apply firstn_nil|].
    now apply (existsb_eqb_not_In AttendanceRecord.date). }
  split.
  { intros reqs Hnokey. unfold listForDay.
    rewrite run_get_attendance_by_date. cbn [fst].
    rewrite (existsb_false_filter (on_date date_str));
      [now rewrite firstn_nil|].
    apply (existsb_eqb_not_In AttendanceRecord.date).
    intros Hin. apply in_map_iff in Hin. destruct Hin as (r & Hd & Hr).
    assert (Hinv : dates_server_assigned (snd (serve_all reqs empty_db))).
    { apply serve_all_invariant; [apply serve_dates_server_assigned|].
      intros r' []. }
    destruct (Hinv r Hr) as [t Ht]. apply (Hnokey t). congruence. }
  intros o db'. unfold get_attendance_by_date. cbn [runs try_except bind await exec fst snd always_500 str_of].
  intros [[-> ->]|[s [-> ->]]]; split; auto.
  right. now exists s.
Qed.

(** ** One mark per person and day *)

Lemma strftime_Ymd_of_day (a b : datetime) :
  calendar_day a = calendar_day b -> strftime_Ymd a = strftime_Ymd b.
Proof.
  unfold calendar_day, strftime_Ymd; intros H.
  injection H as -> -> ->. reflexivity.
Qed.

Lemma days_nondecreasing_from_app (lo : list Z) (l1 l2 : list datetime) :
  days_nondecreasing_from lo (l1 ++ l2)%list =
  days_nondecreasing_from lo l1 && days_nondecreasing_from (last_day lo l1) l2.
Proof.
  revert lo; induction l1 as [|t l1 IH]; intros lo; simpl; [reflexivity|].
  rewrite IH. apply andb_assoc.
Qed.

Lemma days_nondecreasing_from_last (lo : list Z) (l : list datetime) :
  days_nondecreasing_from lo l = true -> tuple_leb lo (last_day lo l) = true.
Proof.
  revert lo; induction l as [|t l IH]; intros lo; simpl.
  - intros _. apply tuple_leb_refl.
  - rewrite andb_true_iff. intros [H1 H2].
    eapply tuple_leb_trans; [exact H1|]. now apply IH.
Qed.

Lemma ledger_inv_more_issued (iss iss' : list string)
    (past : list (string * string)) (db : Store) :
  incl iss iss' -> ledger_inv iss past db -> ledger_inv iss' past db.
Proof.
  intros Hiss [H2 Hp Hi Hn Ho].
  constructor; auto.
  intros k Hk. destruct (Hp k Hk) as [H|[H1 H3]]; auto.
Qed.

Lemma dates_below_later (lo lo' : list Z) (db : Store) :
  tuple_leb lo lo' = true -> dates_below lo db -> dates_below lo' db.
Proof.
  intros Hlo Hd r Hr. destruct (Hd r Hr) as (t & Hv & Ht & Hle).
  exists t. repeat split; auto. eapply tuple_leb_trans; eassumption.
Qed.

Lemma NoDup_map_filter {A B : Type} (f : A -> B) (q : A -> bool) (l : list A) :
  NoDup (map f l) -> NoDup (map f (filter q l)).
Proof.
  induction l as [|x l IH]; simpl; [auto|].
  intros H; inversion H as [|? ? Hnotin Hnd]; subst.
  destruct (q x); simpl; [|auto].
  constructor; [|auto].
  intros Hin. apply Hnotin.
  apply in_map_iff in Hin. destruct Hin as (y & Hy & Hin).
  apply filter_In in Hin. apply in_map_iff. exists y. tauto.
Qed.

Lemma NoDup_map_remove_first {A B : Type} (f : A -> B) (q : A -> bool)
    (l : list A) :
  NoDup (map f l) -> NoDup (map f (remove_first q l)).
Proof.
  induction l as [|x l IH]; simpl; [auto|].
  intros H; inversion H as [|? ? Hnotin Hnd]; subst.
  destruct (q x); simpl; [auto|].
  constructor; [|auto].
  intros Hin. apply Hnotin.
  apply in_map_iff in Hin. destruct Hin as (y & Hy & Hin).
  apply remove_first_incl in Hin. apply in_map_iff. exists y. tauto.
Qed.

Lemma of_person_on_date_In (i d : string) (l : list AttendanceRecord) :
  existsb (of_person_on_date i d) l = true <-> In (i, d) (map person_day l).
Proof.
  induction l as [|r l IH]; simpl; [easy|].
  rewrite orb_true_iff, IH.
  unfold of_person_on_date, of_person, on_date, person_day.
  rewrite andb_true_iff, !String.eqb_eq.
  split; intros [H|H]; auto.
  - left. destruct H; congruence.
  - left. injection H; auto.
Qed.

(** A mark that passes its duplicate check stores a (person, day) no stored
    record has, when the local day has not gone backwards up to its second
    reading of the clock... *)
Lemma monotone_stores_fresh_day (lo : list Z) (db : Store) (req : Request) :
  dates_below lo db ->
  forallb valid_datetime (local_reads_of req) = true ->
  days_nondecreasing_from lo (local_reads_of req) = true ->
  stores_fresh_day req db.
Proof.
  intros Hdates Hvalid Hmono.
  destruct req as [| | | |n u t n' d| | | |]; cbn [stores_fresh_day]; auto.
  cbn [local_reads_of forallb days_nondecreasing_from] in Hvalid, Hmono.
  rewrite !andb_true_iff in Hvalid, Hmono.
  destruct Hvalid as (Hvn & Hvn' & _). destruct Hmono as (Hlo & Hnn' & _).
  intros Hcheck Hin.
  assert (Hin' := Hin).
  apply in_map_iff in Hin. destruct Hin as (r & Hkey & Hr).
  destruct (Hdates r Hr) as (t0 & Hvt & Hdate & Hle).
  unfold person_day in Hkey. injection Hkey as _ Hd.
  assert (Hday : calendar_day t0 = calendar_day n').
  { apply strftime_Ymd_inj; auto. congruence. }
  assert (Hsame : calendar_day n = calendar_day n').
  { apply tuple_leb_antisym; [exact Hnn'|].
    rewrite <- Hday. eapply tuple_leb_trans; eassumption. }
  rewrite (strftime_Ymd_of_day n n' Hsame) in Hcheck.
  apply of_person_on_date_In in Hin'. unfold person_days in Hin'. congruence.
Qed.

(** ... and also when its two readings of the clock give the same day key. *)
Lemma one_day_stores_fresh_day (db : Store) (req : Request) :
  one_day_per_mark req = true -> stores_fresh_day req db.
Proof.
  destruct req as [| | | |n u t n' d| | | |]; cbn [stores_fresh_day]; auto.
  cbn [one_day_per_mark]. intros Hday Hcheck Hin.
  apply String.eqb_eq in Hday. rewrite Hday in Hcheck.
  apply of_person_on_date_In in Hin. unfold person_days in Hin. congruence.
Qed.

Lemma NoDup_snoc {A : Type} (l : list A) (x : A) :
  NoDup l -> ~ In x l -> NoDup (l ++ [x])%list.
Proof.
  induction l as [|y l IH]; simpl; intros Hnd Hx.
  - constructor; [easy|constructor].
  - inversion Hnd as [|? ? Hy Hnd']; subst.
    constructor; [|apply IH; tauto].
    rewrite in_app_iff. simpl. intros [H|[H|[]]]; [tauto|].
    apply Hx. now left.
Qed.

Lemma serve_keeps_ledger_inv (iss : list string)
    (past : list (string * string)) (db : Store) (req : Request) :
  ledger_inv iss past db ->
  NoDup (iss ++ issued_of req)%list ->
  stores_fresh_day req db ->
  ledger_inv (iss ++ issued_of req)%list
    (past ++ marked_of req (fst (serve req db)))%list (snd (serve req db)).
Proof.
  intros Hinv Hfresh Hstores.
  assert (Hlater : ledger_inv (iss ++ issued_of req)%list past db).
  { eapply ledger_inv_more_issued; [|exact Hinv]. apply incl_appl, incl_refl. }
  destruct req as [u t d| |i|i|n u t n' d|n|n|i|s];
    try (rewrite serve_reads_only by reflexivity;
         cbn [marked_of]; rewrite (app_nil_r past); exact Hlater).
  - (* POST /persons *)
    rewrite serve_POST_persons.
    destruct (existsb _ (persons db)) eqn:E;
      cbn [fst snd marked_of]; rewrite (app_nil_r past); [exact Hlater|].
    clear Hlater. cbn [issued_of] in *.
    destruct Hinv as [H2 Hp Hi Hn Ho].
    assert (Hu : ~ In u iss).
    { apply NoDup_remove_2 in Hfresh. rewrite app_nil_r in Hfresh. exact Hfresh. }
    constructor; cbn [attendance persons]; auto.
    + intros k Hk. destruct (Hp k Hk) as [H|[H1 H3]]; [now left|right].
      split; [|apply in_or_app; now left].
      unfold person_ids; cbn [persons]. rewrite map_app, in_app_iff.
      intros [H|[H|[]]]; [now apply H1|].
      cbn in H. congruence.
    + unfold person_ids; cbn [persons]. intros j.
      rewrite map_app, !in_app_iff. intros [H|H]; [left; now apply Hi|now right].
    + unfold person_ids; cbn [persons]. rewrite map_app. cbn.
      apply NoDup_snoc; auto.
  - (* DELETE /persons/{id} *)
    rewrite serve_DELETE_persons_id.
    destruct (existsb _ (persons db)) eqn:E;
      cbn [fst snd marked_of]; rewrite (app_nil_r past); [|exact Hlater].
    clear Hlater. cbn [issued_of] in *.
    rewrite (app_nil_r iss) in *.
    destruct Hinv as [H2 Hp Hi Hn Ho].
    constructor; cbn [attendance persons]; auto.
    + now apply NoDup_map_filter.
    + intros k Hk.
      destruct (String.eqb_spec (fst k) i) as [Ek|Ek].
      * right. rewrite Ek. split.
        -- apply (existsb_eqb_not_In Person.id). cbn [persons].
           now apply remove_first_has_id.
        -- apply Hi. now apply (existsb_eqb_In Person.id).
      * destruct (Hp k Hk) as [H|[H1 H3]]; [left|right].
        -- unfold person_days in *; cbn [attendance].
           apply in_map_iff in H. destruct H as (r & Hkey & Hr).
           apply in_map_iff. exists r. split; [exact Hkey|].
           apply filter_In. split; [exact Hr|].
           apply negb_true_iff, String.eqb_neq.
           rewrite <- Hkey in Ek. exact Ek.
        -- split; [|exact H3]. intros Hin. apply H1.
           unfold person_ids in *; cbn [persons] in Hin.
           apply in_map_iff in Hin. destruct Hin as (p & Hp' & Hin).
           apply remove_first_incl in Hin. apply in_map_iff. now exists p.
    + intros j Hin. apply Hi.
      unfold person_ids in *; cbn [persons] in Hin.
      apply in_map_iff in Hin. destruct Hin as (p & Hp' & Hin).
      apply remove_first_incl in Hin. apply in_map_iff. now exists p.
    + now apply NoDup_map_remove_first.
  - (* POST /attendance *)
    rewrite serve_POST_attendance.
    destruct (existsb _ (persons db)) eqn:E; cbn [negb];
      [|cbn [fst snd marked_of]; rewrite (app_nil_r past); exact Hlater].
    destruct (existsb _ (attendance db)) eqn:E';
      [cbn [fst snd marked_of]; rewrite (app_nil_r past); exact Hlater|].
    cbn [fst snd marked_of issued_of] in *.
    rewrite (app_nil_r iss) in *.
    assert (Hkey : ~ In (AttendanceCreate.person_id d, strftime_Ymd n')
                     (person_days db))
      by (apply Hstores; exact E').
    destruct Hlater as [H2 Hp Hi Hn Ho].
    constructor; cbn [attendance persons]; auto.
    + unfold person_days; cbn [attendance]. rewrite map_app. cbn.
      apply NoDup_snoc; auto.
    + intros k Hk. unfold person_days; cbn [attendance].
      rewrite map_app, in_app_iff.
      apply in_app_iff in Hk. destruct Hk as [Hk|[<-|[]]].
      * destruct (Hp k Hk) as [H|H]; auto.
      * left; right. now left.
    + apply NoDup_snoc; auto.
      intros Hk. destruct (Hp _ Hk) as [H|[H1 _]]; [now apply Hkey|].
      apply H1. now apply (existsb_eqb_In Person.id).
Qed.

Lemma serve_keeps_dates_below (lo : list Z) (db : Store) (req : Request) :
  dates_below lo db ->
  forallb valid_datetime (local_reads_of req) = true ->
  days_nondecreasing_from lo (local_reads_of req) = true ->
  dates_below (last_day lo (local_reads_of req)) (snd (serve req db)).
Proof.
  intros Hd Hvalid Hmono.
  assert (Hlater : dates_below (last_day lo (local_reads_of req)) db).
  { eapply dates_below_later; [|exact Hd].
    now apply days_nondecreasing_from_last. }
  destruct (serve_cases req db)
    as [E|[(u & t & d & _ & _ & E)|[(i & _ & _ & E)
       |(n & u & t & n' & d & -> & _ & _ & E)]]];
    rewrite E; clear E; [exact Hlater|exact Hlater| |]; intros r; cbn [attendance].
  - intros Hr. apply filter_In in Hr. now apply Hlater.
  - rewrite in_app_iff. intros [Hr|[<-|[]]]; [now apply Hlater|].
    cbn [local_reads_of forallb last_day fold_left] in *.
    rewrite !andb_true_iff in Hvalid. destruct Hvalid as (_ & Hvn' & _).
    exists n'. repeat split; auto. apply tuple_leb_refl.
Qed.

(** Runs in which the local day never goes backwards. *)
Lemma serve_all_keeps_ledger_inv_monotone (reqs : list Request) :
  forall (lo : list Z) (iss : list string) (past : list (string * string))
         (db : Store),
  ledger_inv iss past db -> dates_below lo db ->
  forallb valid_datetime (local_reads reqs) = true ->
  days_nondecreasing_from lo (local_reads reqs) = true ->
  NoDup (iss ++ issued reqs)%list ->
  ledger_inv (iss ++ issued reqs)%list
    (past ++ marked reqs db)%list (snd (serve_all reqs db)).
Proof.
  induction reqs as [|req reqs IH];
    intros lo iss past db Hinv Hdates Hvalid Hmono Hfresh.
  - cbn. now rewrite !app_nil_r.
  - unfold local_reads, issued in *. cbn [flat_map] in *.
    rewrite forallb_app in Hvalid. rewrite days_nondecreasing_from_app in Hmono.
    apply andb_true_iff in Hvalid, Hmono.
    destruct Hvalid as [Hv1 Hv2]. destruct Hmono as [Hm1 Hm2].
    rewrite app_assoc in Hfresh.
    assert (Hf1 : NoDup (iss ++ issued_of req)%list)
      by (eapply NoDup_app_remove_r; exact Hfresh).
    pose proof (serve_keeps_ledger_inv iss past db req Hinv Hf1
                  (monotone_stores_fresh_day lo db req Hdates Hv1 Hm1))
      as Hstep.
    pose proof (serve_keeps_dates_below lo db req Hdates Hv1 Hm1) as Hstep'.
    cbn [marked serve_all].
    destruct (serve req db) as [o db1]. cbn [fst snd] in Hstep, Hstep'.
    specialize (IH _ _ _ _ Hstep Hstep' Hv2 Hm2 Hfresh).
    destruct (serve_all reqs db1) as [os db2]. cbn [snd] in *.
    now rewrite !app_assoc.
Qed.

(** Runs in which each mark reads one day. *)
Lemma serve_all_keeps_ledger_inv_one_day (reqs : list Request) :
  forall (iss : list string) (past : list (string * string)) (db : Store),
  ledger_inv iss past db ->
  forallb one_day_per_mark reqs = true ->
  NoDup (iss ++ issued reqs)%list ->
  ledger_inv (iss ++ issued reqs)%list
    (past ++ marked reqs db)%list (snd (serve_all reqs db)).
Proof.
  induction reqs as [|req reqs IH]; intros iss past db Hinv Hdays Hfresh.
  - cbn. now rewrite !app_nil_r.
  - unfold issued in *. cbn [flat_map forallb] in *.
    apply andb_true_iff in Hdays. destruct Hdays as [Hd1 Hd2].
    rewrite app_assoc in Hfresh.
    assert (Hf1 : NoDup (iss ++ issued_of req)%list)
      by (eapply NoDup_app_remove_r; exact Hfresh).
    pose proof (serve_keeps_ledger_inv iss past db req Hinv Hf1
                  (one_day_stores_fresh_day db req Hd1)) as Hstep.
    cbn [marked serve_all].
    destruct (serve req db) as [o db1]. cbn [fst snd] in Hstep.
    specialize (IH _ _ _ Hstep Hd2 Hfresh).
    destruct (serve_all reqs db1) as [os db2]. cbn [snd] in *.
    now rewrite !app_assoc.
Qed.

Lemma ledger_inv_empty : ledger_inv [] [] empty_db.
Proof.
  constructor; cbn; try constructor; try easy.
Qed.

(** The duplicate check of a mark reads the local clock once and the date of
    its record reads it again.  When the clock has been set back a day and
    midnight passes between the two readings, a second mark of the same
    person succeeds and a second record with the same (person_id, date) is
    stored. *)
Lemma clock_set_back_counterexample :
  forallb valid_datetime (local_reads clock_set_back) = true /\
  NoDup (issued clock_set_back) /\
  days_nondecreasing (local_reads clock_set_back) = false /\
  forallb one_day_per_mark clock_set_back = false /\
  fst (serve_all clock_set_back empty_db) =
    [Returned (a_person (new_Person "id-john" utc_2330 john));
     Returned (a_record (new_AttendanceRecord "id-rec-1" utc_next_day
                           local_next_day (seen "id-john" john)));
     Returned (a_record (new_AttendanceRecord "id-rec-2" utc_next_day
                           local_after_midnight (seen "id-john" john)))] /\
  marked clock_set_back empty_db =
    [("id-john", "2024-03-12"); ("id-john", "2024-03-12")]%string /\
  person_days (snd (serve_all clock_set_back empty_db)) =
    [("id-john", "2024-03-12"); ("id-john", "2024-03-12")]%string /\
  ~ NoDup (marked clock_set_back empty_db) /\
  ~ I2 (snd (serve_all clock_set_back empty_db)).
Proof.
  assert (Em : marked clock_set_back empty_db =
               [("id-john", "2024-03-12"); ("id-john", "2024-03-12")]%string)
    by (vm_compute; reflexivity).
  assert (Ed : person_days (snd (serve_all clock_set_back empty_db)) =
               [("id-john", "2024-03-12"); ("id-john", "2024-03-12")]%string)
    by (vm_compute; reflexivity).
  split; [reflexivity|].
  split; [repeat constructor; intros []|].
  split; [reflexivity|].
  split; [reflexivity|].
  split; [vm_compute; reflexivity|].
  split; [exact Em|].
  split; [exact Ed|].
  unfold I2. rewrite Em, Ed.
  split; intros H; inversion H as [|? ? Hnotin _]; apply Hnotin; now left.
Qed.

(** C1, as amended.  In every run of requests served one after the other
    from the empty database in which uuid4 never hands out the same person
    id twice and either the local calendar day never goes backwards from
    one clock reading to the next, or every mark reads the same day for its
    duplicate check and for the date of its record: no two marks that
    succeeded are for the same (person, day); no two stored attendance
    records share (person_id, date); the record of every mark that
    succeeded is still stored unless its person has been deleted; and a
    mark for a registered person who already has a record for today's day
    key raises AttendanceAlreadyMarked and leaves the database as it was. *)
Theorem mark_once_per_person_and_day (reqs : list Request) :
  (forallb valid_datetime (local_reads reqs) = true /\
   days_nondecreasing (local_reads reqs) = true) \/
  forallb one_day_per_mark reqs = true ->
  NoDup (issued reqs) ->
  NoDup (marked reqs empty_db) /\
  I2 (snd (serve_all reqs empty_db)) /\
  (forall k, In k (marked reqs empty_db) ->
     In k (person_days (snd (serve_all reqs empty_db))) \/
     ~ In (fst k) (person_ids (snd (serve_all reqs empty_db)))) /\
  forall (db : Store) (now_today : datetime) (uuid4 : string)
         (utcnow now_date : datetime) (attendance_data : AttendanceCreate),
    In (AttendanceCreate.person_id attendance_data) (person_ids db) ->
    In (AttendanceCreate.person_id attendance_data, strftime_Ymd now_today)
       (person_days db) ->
    run (mark_attendance now_today uuid4 utcnow now_date attendance_data) db =
      (Raised AttendanceAlreadyMarked, db).
Proof.
  intros Hclock Hfresh.
  assert (Hinv : ledger_inv (issued reqs) (marked reqs empty_db)
                   (snd (serve_all reqs empty_db))).
  { destruct Hclock as [[Hvalid Hmono]|Hdays].
    - apply (serve_all_keeps_ledger_inv_monotone reqs [] [] [] empty_db
               ledger_inv_empty); auto.
      intros r [].
    - apply (serve_all_keeps_ledger_inv_one_day reqs [] [] empty_db
               ledger_inv_empty); auto. }
  split; [exact (inv_once _ _ _ Hinv)|].
  split; [exact (inv_I2 _ _ _ Hinv)|].
  split.
  { intros k Hk. destruct (inv_past _ _ _ Hinv k Hk) as [H|[H _]]; auto. }
  intros db now_today uuid4 utcnow now_date attendance_data Hperson Hrecord.
  rewrite run_mark_attendance.
  apply (existsb_eqb_In Person.id) in Hperson.
  apply of_person_on_date_In in Hrecord.
  unfold has_id at 1. rewrite Hperson. cbn [negb].
  now rewrite Hrecord.
Qed.

Lemma mark_once_per_person_and_day_witness :
  NoDup (marked two_days empty_db) /\
  I2 (snd (serve_all two_days empty_db)) /\
  (forall k, In k (marked two_days empty_db) ->
     In k (person_days (snd (serve_all two_days empty_db))) \/
     ~ In (fst k) (person_ids (snd (serve_all two_days empty_db)))) /\
  forall (db : Store) (now_today : datetime) (uuid4 : string)
         (utcnow now_date : datetime) (attendance_data : AttendanceCreate),
    In (AttendanceCreate.person_id attendance_data) (person_ids db) ->
    In (AttendanceCreate.person_id attendance_data, strftime_Ymd now_today)
       (person_days db) ->
    run (mark_attendance now_today uuid4 utcnow now_date attendance_data) db =
      (Raised AttendanceAlreadyMarked, db).
Proof.
  apply (mark_once_per_person_and_day two_days).
  - left. split; reflexivity.
  - repeat constructor. intros [].
Defined.

(** What the run of [two_days] answers: the second mark of the first day is
    refused, the mark of the next day is accepted. *)
Example two_days_marks :
  marked two_days empty_db =
    [("id-john", "2024-03-11"); ("id-john", "2024-03-12")]%string /\
  nth_error (fst (serve_all two_days empty_db)) 3 =
    Some (Raised AttendanceAlreadyMarked).
Proof. split; vm_compute; reflexivity. Qed.

(** ** Deletion is two storage calls *)

(** A reader served between the two storage calls of a delete finds the
    Person gone and its attendance record still there. *)
Lemma delete_not_atomic_counterexample :
  let between := snd (step (delete_person "id-john") db_john_marked) in
  person_ids db_john_marked = ["id-john"; "id-sarah"]%string /\
  person_ids between = ["id-sarah"]%string /\
  map AttendanceRecord.person_id (attendance between) = ["id-john"]%string /\
  outcome_of (snd (fst (interleave [false; true]
     (delete_person "id-john") (get_person "id-john") db_john_marked))) =
    Some (Raised PersonNotFound) /\
  outcome_of (snd (fst (interleave [false; true]
     (delete_person "id-john") (get_person_attendance_history "id-john")
     db_john_marked))) =
    Some (Returned
      [new_AttendanceRecord "id-rec-1" utc_2330 local_0500
         (seen "id-john" john)]) /\
  outcome_of (fst (fst (interleave [false; true; false]
     (delete_person "id-john") (get_person_attendance_history "id-john")
     db_john_marked))) =
    Some (Returned
      "Person and their attendance records deleted successfully"%string).
Proof. cbv zeta. repeat split; vm_compute; reflexivity. Qed.

(** C3, as amended.  delete(id) raises NotFound (404) and changes nothing
    when no Person has that id.  Otherwise it removes the first Person with
    that id and then, in a second storage call, every attendance record
    whose person_id is id.  Whatever the storage does, an execution that
    returns success has made both removals, and any other execution reports
    a failure, having changed nothing or removed the Person only.  The state
    after the first call, Person removed and records untouched, is a state
    of the database. *)
Theorem delete_person_two_steps (person_id : string) (db : Store) :
  let found := existsb (has_id person_id) (persons db) in
  let person_gone :=
    mkStore (remove_first (has_id person_id) (persons db)) (attendance db) in
  let both_gone :=
    mkStore (remove_first (has_id person_id) (persons db))
            (filter (fun r => negb (of_person person_id r)) (attendance db)) in
  let success :=
    Returned "Person and their attendance records deleted successfully"%string in
  run (delete_person person_id) db =
    (if found then (success, both_gone) else (Raised PersonNotFound, db)) /\
  existsb (of_person person_id) (attendance both_gone) = false /\
  (List.length (persons both_gone) + (if found then 1 else 0)
   = List.length (persons db))%nat /\
  (NoDup (person_ids db) ->
   existsb (has_id person_id) (persons both_gone) = false) /\
  (forall o db',
     runs (delete_person person_id) db o db' ->
     (o = success /\ db' = both_gone /\ found = true) \/
     (exists e, o = Raised e /\ (db' = db \/ db' = person_gone))) /\
  (found = true ->
   snd (step (delete_person person_id) db) = person_gone).
Proof.
  cbv zeta.
  split; [apply run_delete_person|].
  split; [apply filter_negb_none|].
  split.
  { cbn [persons].
    induction (persons db) as [|p l IH]; cbn; [reflexivity|].
    destruct (has_id person_id p); cbn; [lia|].
    now rewrite IH. }
  split; [apply remove_first_has_id|].
  split; [|reflexivity].
  intros o db'. unfold delete_person.
  cbn [runs try_except bind await exec fst snd].
  rewrite count_zero.
  destruct (existsb (has_id person_id) (persons db)) eqn:E;
    cbn [negb runs try_except bind await exec fst snd reraise_or_500
         persons attendance].
  - intros [[[-> ->]|(s & -> & ->)]|(s & -> & ->)].
    + now left.
    + right. eexists; split; [reflexivity|now right].
    + right. eexists; split; [reflexivity|now left].
  - intros [[-> ->]|(s & -> & ->)]; right; eexists; split;
      try reflexivity; left; [|reflexivity].
    now rewrite remove_first_none, eta_Store.
Qed.

(** ** Uniqueness rests on the check before the insert *)

(** Two concurrent registrations of one employee id both succeed, and so do
    two concurrent marks of one person on one day. *)
Lemma concurrent_callers_counterexample :
  outcome_of (fst (fst race_register)) =
    Some (Returned (new_Person "id-1" utc_2330 john)) /\
  outcome_of (snd (fst race_register)) =
    Some (Returned (new_Person "id-2" utc_2330 john)) /\
  employee_ids (snd race_register) = ["EMP001"; "EMP001"]%string /\
  outcome_of (fst (fst race_mark)) =
    Some (Returned (new_AttendanceRecord "id-rec-1" utc_2330 local_0500
                      (seen "id-john" john))) /\
  outcome_of (snd (fst race_mark)) =
    Some (Returned (new_AttendanceRecord "id-rec-2" utc_2330 local_0500
                      (seen "id-john" john))) /\
  person_days (snd race_mark) =
    [("id-john", "2024-03-11"); ("id-john", "2024-03-11")]%string.
Proof. repeat split; vm_compute; reflexivity. Qed.

Lemma serve_keeps_I1 (req : Request) (db : Store) :
  I1 db -> I1 (snd (serve req db)).
Proof.
  unfold I1, employee_ids. intros H.
  destruct (serve_cases req db)
    as [E|[(u & t & d & _ & Hfresh & E)|[(i & _ & _ & E)
       |(n & u & t & n' & d & _ & _ & _ & E)]]];
    rewrite E; clear E; cbn [persons]; auto.
  - rewrite map_app. apply NoDup_snoc; [exact H|].
    now apply (existsb_eqb_not_In Person.employee_id).
  - now apply NoDup_map_remove_first.
Qed.

Lemma serve_keeps_I2 (req : Request) (db : Store) :
  one_day_per_mark req = true -> I2 db -> I2 (snd (serve req db)).
Proof.
  unfold I2, person_days. intros Hday H.
  destruct (serve_cases req db)
    as [E|[(u & t & d & _ & _ & E)|[(i & _ & _ & E)
       |(n & u & t & n' & d & -> & _ & Hfresh & E)]]];
    rewrite E; clear E; cbn [attendance]; auto.
  - now apply NoDup_map_filter.
  - rewrite map_app. apply NoDup_snoc; [exact H|].
    cbn [one_day_per_mark] in Hday. apply String.eqb_eq in Hday.
    rewrite Hday in Hfresh. intros Hin.
    change (In (AttendanceCreate.person_id d, strftime_Ymd n')
               (map person_day (attendance db))) in Hin.
    apply of_person_on_date_In in Hin. congruence.
Qed.

(** C8, as amended.  Uniqueness rests only on the existence check each
    handler makes before its insert.  Served one at a time, requests keep I1
    (no two Persons with one employee_id), whatever the requests and the
    clock, and keep I2 (no two records with one (person_id, date)) as long
    as each mark reads the same local day for its check and for its
    record.  No storage constraint is relied on, and
    none is translated: once the check has passed, a register or a mark
    either returns its record or, if a storage call raises, fails with a
    500, never with DuplicateEmployeeId or AttendanceAlreadyMarked. *)
Theorem uniqueness_by_check_only (reqs : list Request) (db : Store) :
  I1 db -> I2 db -> forallb one_day_per_mark reqs = true ->
  I1 (snd (serve_all reqs db)) /\
  I2 (snd (serve_all reqs db)) /\
  (forall reqs0 db0, I1 db0 -> I1 (snd (serve_all reqs0 db0))) /\
  (forall uuid4 utcnow person_data db0 o db',
     existsb (has_employee_id (PersonCreate.employee_id person_data))
       (persons db0) = false ->
     runs (create_person uuid4 utcnow person_data) db0 o db' ->
     o = Returned (new_Person uuid4 utcnow person_data) \/
     exists s, o = Raised (HTTPException 500
                             ("Error creating person: " ++ s)%string)) /\
  (forall now_today uuid4 utcnow now_date attendance_data db0 o db',
     existsb (has_id (AttendanceCreate.person_id attendance_data))
       (persons db0) = true ->
     existsb (of_person_on_date (AttendanceCreate.person_id attendance_data)
                (strftime_Ymd now_today)) (attendance db0) = false ->
     runs (mark_attendance now_today uuid4 utcnow now_date attendance_data)
       db0 o db' ->
     o = Returned (new_AttendanceRecord uuid4 utcnow now_date attendance_data) \/
     exists s, o = Raised (HTTPException 500
                             ("Error marking attendance: " ++ s)%string)).
Proof.
  intros H1 H2 Hdays.
  split; [now apply serve_all_invariant; [apply serve_keeps_I1|]|].
  split.
  { revert db H1 H2. induction reqs as [|req reqs IH]; intros db H1 H2;
      [exact H2|].
    cbn [forallb] in Hdays. apply andb_true_iff in Hdays.
    destruct Hdays as [Hd Hds].
    pose proof (serve_keeps_I1 req db H1) as H1'.
    pose proof (serve_keeps_I2 req db Hd H2) as H2'.
    cbn [serve_all]. destruct (serve req db) as [o db1]. cbn [snd] in *.
    specialize (IH Hds db1 H1' H2').
    now destruct (serve_all reqs db1). }
  split.
  { intros reqs0 db0. apply serve_all_invariant. apply serve_keeps_I1. }
  split.
  - intros uuid4 utcnow person_data db0 o db' Hcheck.
    unfold create_person.
    cbn [runs try_except bind await exec fst snd].
    rewrite truthy_find, Hcheck.
    cbn [runs try_except bind await exec fst snd reraise_or_500].
    intros [[[-> _]|(s & -> & _)]|(s & -> & _)]; [now left|right..];
      now exists s.
  - intros now_today uuid4 utcnow now_date attendance_data db0 o db' Hp Hcheck.
    unfold mark_attendance.
    cbn [runs try_except bind await exec fst snd].
    rewrite truthy_find, Hp.
    cbn [negb runs try_except bind await exec fst snd reraise_or_500].
    rewrite truthy_find, Hcheck.
    cbn [runs try_except bind await exec fst snd reraise_or_500].
    intros [[[[-> _]|(s & -> & _)]|(s & -> & _)]|(s & -> & _)];
      [now left|right..]; now exists s.
Qed.

Lemma uniqueness_by_check_only_witness :
  I1 (snd (serve_all two_days empty_db)) /\
  I2 (snd (serve_all two_days empty_db)) /\
  (forall reqs0 db0, I1 db0 -> I1 (snd (serve_all reqs0 db0))) /\
  (forall uuid4 utcnow person_data db0 o db',
     existsb (has_employee_id (PersonCreate.employee_id person_data))
       (persons db0) = false ->
     runs (create_person uuid4 utcnow person_data) db0 o db' ->
     o = Returned (new_Person uuid4 utcnow person_data) \/
     exists s, o = Raised (HTTPException 500
                             ("Error creating person: " ++ s)%string)) /\
  (forall now_today uuid4 utcnow now_date attendance_data db0 o db',
     existsb (has_id (AttendanceCreate.person_id attendance_data))
       (persons db0) = true ->
     existsb (of_person_on_date (AttendanceCreate.person_id attendance_data)
                (strftime_Ymd now_today)) (attendance db0) = false ->
     runs (mark_attendance now_today uuid4 utcnow now_date attendance_data)
       db0 o db' ->
     o = Returned (new_AttendanceRecord uuid4 utcnow now_date attendance_data) \/
     exists s, o = Raised (HTTPException 500
                             ("Error marking attendance: " ++ s)%string)).
Proof.
  apply (uniqueness_by_check_only two_days empty_db).
  - constructor.
  - constructor.
  - reflexivity.
Defined.

(** * Further properties of the handlers *)

(** ** Looking a person up *)

Lemma find_has_id_In (i : string) (l : list Person) :
  In i (map Person.id l) ->
  exists p, find (has_id i) l = Some p /\ In p l /\ Person.id p = i.
Proof.
  intros H. apply (existsb_eqb_In Person.id) in H.
  change (existsb (has_id i) l = true) in H.
  rewrite <- truthy_find in H.
  destruct (find (has_id i) l) as [p|] eqn:E; [|discriminate].
  exists p. split; [reflexivity|].
  apply find_some in E. destruct E as [Hin Hid].
  split; [exact Hin|]. now apply String.eqb_eq in Hid.
Qed.

Lemma find_has_id_not_In (i : string) (l : list Person) :
  ~ In i (map Person.id l) -> find (has_id i) l = None.
Proof.
  intros H. apply (existsb_eqb_not_In Person.id) in H.
  change (existsb (has_id i) l = false) in H.
  rewrite <- truthy_find in H.
  now destruct (find (has_id i) l).
Qed.

(** X1.  get_person changes nothing.  When some stored Person has the id it
    returns a stored Person with that id; when none has, it raises 404
    "Person not found", which the handler lets through as it is.  If the
    storage call raises, the failure is a 500 and still nothing changes. *)
Theorem get_person_found_or_404 (person_id : string) (db : Store) :
  snd (run (get_person person_id) db) = db /\
  (In person_id (person_ids db) ->
   exists p, fst (run (get_person person_id) db) = Returned p /\
             In p (persons db) /\ Person.id p = person_id) /\
  (~ In person_id (person_ids db) ->
   fst (run (get_person person_id) db) = Raised PersonNotFound) /\
  (forall o db',
     runs (get_person person_id) db o db' ->
     db' = db /\
     (o = fst (run (get_person person_id) db) \/
      exists s, o = Raised (HTTPException 500
                              ("Error fetching person: " ++ s)%string))).
Proof.
  rewrite run_get_person.
  split; [now destruct (find _ (persons db))|].
  split.
  { intros H. destruct (find_has_id_In _ _ H) as (p & E & Hin & Hid).
    rewrite E. now exists p. }
  split.
  { intros H. now rewrite (find_has_id_not_In _ _ H). }
  intros o db'. unfold get_person.
  cbn [runs try_except bind await exec fst snd].
  destruct (find (has_id person_id) (persons db)) as [p|];
    cbn [runs try_except bind reraise_or_500 fst];
    intros [[-> ->]|(s & -> & ->)]; split; auto; right; now exists s.
Qed.

Lemma find_app_fresh (i : string) (l : list Person) (p : Person) :
  ~ In (Person.id p) (map Person.id l) ->
  find (has_id i) (l ++ [p])%list =
  if String.eqb (Person.id p) i then Some p else find (has_id i) l.
Proof.
  intros Hfresh. induction l as [|x l IH]; cbn.
  - unfold has_id. now destruct (String.eqb (Person.id p) i).
  - cbn in Hfresh. destruct (has_id i x) eqn:Ex.
    + destruct (String.eqb_spec (Person.id p) i) as [E'|E']; [|reflexivity].
      exfalso. apply Hfresh. left.
      unfold has_id in Ex. apply String.eqb_eq in Ex. congruence.
    + apply IH. tauto.
Qed.

(** X2.  A registration that succeeds with an id no stored Person has can be
    read back: get_person with the returned id returns the returned Person
    as storage keeps it, that is with created_at cut to the millisecond and
    every other field the same, and get_person with any other id answers as
    before. *)
Theorem register_then_get (uuid4 : string) (utcnow : datetime)
    (person_data : PersonCreate) (db : Store) (p : Person) (db' : Store) :
  ~ In uuid4 (person_ids db) ->
  run (create_person uuid4 utcnow person_data) db = (Returned p, db') ->
  run (get_person (Person.id p)) db' = (Returned (bson_person p), db') /\
  forall j, j <> Person.id p ->
    fst (run (get_person j) db') = fst (run (get_person j) db).
Proof.
  intros Hfresh. rewrite run_create_person.
  destruct (existsb _ (persons db)); [discriminate|].
  intros H; injection H as <- <-.
  split.
  - rewrite run_get_person. cbn [persons].
    rewrite find_app_fresh by exact Hfresh.
    cbn [bson_person new_Person Person.id]. now rewrite String.eqb_refl.
  - intros j Hj. rewrite !run_get_person. cbn [persons].
    rewrite find_app_fresh by exact Hfresh.
    cbn [bson_person new_Person Person.id] in *.
    destruct (String.eqb_spec uuid4 j) as [E|E]; [congruence|].
    now destruct (find (has_id j) (persons db)).
Qed.

Lemma register_then_get_witness :
  run (get_person (Person.id (new_Person "id-sarah" utc_233107_123456 sarah)))
      (snd (run (create_person "id-sarah" utc_233107_123456 sarah) db_john)) =
    (Returned (bson_person (new_Person "id-sarah" utc_233107_123456 sarah)),
     snd (run (create_person "id-sarah" utc_233107_123456 sarah) db_john)) /\
  forall j, j <> Person.id (new_Person "id-sarah" utc_233107_123456 sarah) ->
    fst (run (get_person j)
           (snd (run (create_person "id-sarah" utc_233107_123456 sarah)
                   db_john))) =
    fst (run (get_person j) db_john).
Proof.
  apply (register_then_get "id-sarah" utc_233107_123456 sarah db_john).
  - cbn. intros [H|[]]. discriminate H.
  - reflexivity.
Defined.

(** Registered at 23:31:07.123456, Sarah is read back as created at
    23:31:07.123. *)
Example created_at_read_back :
  fst (run (create_person "id-sarah" utc_233107_123456 sarah) db_john) =
    Returned (new_Person "id-sarah" utc_233107_123456 sarah) /\
  fst (run (get_person "id-sarah")
         (snd (run (create_person "id-sarah" utc_233107_123456 sarah) db_john))) =
    Returned (new_Person "id-sarah" utc_233107_123 sarah).
Proof. split; vm_compute; reflexivity. Qed.

(** ** Listing persons *)

(** X3.  After a registration that succeeded, get_all_persons returns at
    most 1000 Persons: the stored ones followed by the new one (as storage
    keeps it, created_at cut to the millisecond) while fewer than 1000 were
    stored, and otherwise the same first 1000 as before, the new Person left
    out. *)
Theorem register_then_list (uuid4 : string) (utcnow : datetime)
    (person_data : PersonCreate) (db : Store) (p : Person) (db' : Store) :
  run (create_person uuid4 utcnow person_data) db = (Returned p, db') ->
  exists l,
    run get_all_persons db' = (Returned l, db') /\
    (List.length l <= 1000)%nat /\
    ((List.length (persons db) < 1000)%nat ->
     l = (persons db ++ [bson_person p])%list) /\
    ((1000 <= List.length (persons db))%nat ->
     l = firstn 1000 (persons db) /\
     fst (run get_all_persons db) = Returned l).
Proof.
  rewrite run_create_person.
  destruct (existsb _ (persons db)); [discriminate|].
  intros H; injection H as <- <-.
  eexists. rewrite run_get_all_persons. cbn [persons].
  split; [reflexivity|].
  split; [apply firstn_le_length|].
  split.
  - intros Hlt. apply firstn_all2. rewrite length_app. cbn. lia.
  - intros Hge. rewrite run_get_all_persons. cbn [fst].
    rewrite firstn_app.
    replace (1000 - List.length (persons db))%nat with 0%nat by lia.
    now rewrite firstn_O, app_nil_r.
Qed.

Lemma register_then_list_witness :
  exists l,
    run get_all_persons
      (snd (run (create_person "id-sarah" utc_233107_123456 sarah) db_john)) =
      (Returned l,
       snd (run (create_person "id-sarah" utc_233107_123456 sarah) db_john)) /\
    (List.length l <= 1000)%nat /\
    ((List.length (persons db_john) < 1000)%nat ->
     l = (persons db_john ++
          [bson_person (new_Person "id-sarah" utc_233107_123456 sarah)])%list) /\
    ((1000 <= List.length (persons db_john))%nat ->
     l = firstn 1000 (persons db_john) /\
     fst (run get_all_persons db_john) = Returned l).
Proof.
  apply (register_then_list "id-sarah" utc_233107_123456 sarah db_john).
  reflexivity.
Defined.

(** ** Today's list and today's statistics *)

(** X4.  Read at the same local time on the same database, today's list is
    the by-date list for today's day key, and its length is present_today
    of the statistics, cut off at 1000. *)
Theorem today_list_matches_stats (now : datetime) (db : Store) :
  exists (l : list AttendanceRecord) (stats : AttendanceStats),
    run (get_today_attendance now) db = (Returned l, db) /\
    run (get_attendance_by_date (strftime_Ymd now)) db = (Returned l, db) /\
    run (get_attendance_stats now) db = (Returned stats, db) /\
    Z.of_nat (List.length l) =
      Z.min 1000 (AttendanceStats.present_today stats).
Proof.
  eexists. eexists.
  rewrite run_get_today_attendance, run_get_attendance_by_date,
          run_get_attendance_stats.
  repeat split. cbv zeta. cbn [AttendanceStats.present_today].
  unfold count. rewrite length_firstn. lia.
Qed.

(** ** What a mark stores *)

(** X5.  The record of a mark that succeeds is made of the request and of
    the three readings only: the same request with the same readings yields
    the same record on any two databases, and its person_name and
    employee_id are the caller's, whatever the stored Person says. *)
Theorem mark_record_from_request
    (now_today : datetime) (uuid4 : string) (utcnow now_date : datetime)
    (attendance_data : AttendanceCreate)
    (db1 db2 : Store) (r1 r2 : AttendanceRecord) (db1' db2' : Store) :
  run (mark_attendance now_today uuid4 utcnow now_date attendance_data) db1 =
    (Returned r1, db1') ->
  run (mark_attendance now_today uuid4 utcnow now_date attendance_data) db2 =
    (Returned r2, db2') ->
  r1 = r2 /\
  AttendanceRecord.person_name r1 = AttendanceCreate.person_name attendance_data /\
  AttendanceRecord.employee_id r1 = AttendanceCreate.employee_id attendance_data /\
  AttendanceRecord.confidence r1 = AttendanceCreate.confidence attendance_data /\
  AttendanceRecord.photo r1 = AttendanceCreate.photo attendance_data.
Proof.
  rewrite !run_mark_attendance.
  destruct (negb _); [discriminate|].
  destruct (existsb _ (attendance db1)); [discriminate|].
  intros H1; injection H1 as <- _.
  destruct (negb _); [discriminate|].
  destruct (existsb _ (attendance db2)); [discriminate|].
  intros H2; injection H2 as <- _.
  repeat split.
Qed.

Lemma mark_record_from_request_witness :
  new_AttendanceRecord "id-rec-1" utc_2330 local_0500 john_as_sarah =
  new_AttendanceRecord "id-rec-1" utc_2330 local_0500 john_as_sarah /\
  AttendanceRecord.person_name
    (new_AttendanceRecord "id-rec-1" utc_2330 local_0500 john_as_sarah) =
    AttendanceCreate.person_name john_as_sarah /\
  AttendanceRecord.employee_id
    (new_AttendanceRecord "id-rec-1" utc_2330 local_0500 john_as_sarah) =
    AttendanceCreate.employee_id john_as_sarah /\
  AttendanceRecord.confidence
    (new_AttendanceRecord "id-rec-1" utc_2330 local_0500 john_as_sarah) =
    AttendanceCreate.confidence john_as_sarah /\
  AttendanceRecord.photo
    (new_AttendanceRecord "id-rec-1" utc_2330 local_0500 john_as_sarah) =
    AttendanceCreate.photo john_as_sarah.
Proof.
  apply (mark_record_from_request local_0500 "id-rec-1" utc_2330 local_0500
           john_as_sarah db_john
           (snd (serve (POST_persons "id-sarah" utc_2331 sarah) db_john))
           _ _
           (snd (run (mark_attendance local_0500 "id-rec-1" utc_2330
                        local_0500 john_as_sarah) db_john))
           (snd (run (mark_attendance local_0500 "id-rec-1" utc_2330
                        local_0500 john_as_sarah)
                   (snd (serve (POST_persons "id-sarah" utc_2331 sarah)
                           db_john)))));
    reflexivity.
Defined.

(** ** Reading a mark back *)




(** Marked at 23:31:07.123456 UTC, John's record is read back with the
    timestamp 23:31:07.123. *)
Example timestamp_read_back :
  historyFor "id-john"
    (snd (run (mark_attendance local_0500 "id-rec-1" utc_233107_123456
                 local_0500 (seen "id-john" john)) db_john)) =
  Returned [new_AttendanceRecord "id-rec-1" utc_233107_123 local_0500
              (seen "id-john" john)].
Proof. vm_compute. reflexivity. Qed.

(** ** Referential integrity in serial runs *)

Lemma remove_first_keeps {A : Type} (q : A -> bool) (l : list A) (x : A) :
  In x l -> q x = false -> In x (remove_first q l).
Proof.
  induction l as [|y l IH]; cbn; [easy|].
  intros [->|Hin] Hq.
  - rewrite Hq. now left.
  - destruct (q y); [exact Hin|]. right. auto.
Qed.

Lemma serve_keeps_I3 (req : Request) (db : Store) :
  I3 db -> I3 (snd (serve req db)).
Proof.
  unfold I3, person_ids. intros H.
  destruct (serve_cases req db)
    as [E|[(u & t & d & _ & _ & E)|[(i & _ & _ & E)
       |(n & u & t & n' & d & _ & Hp & _ & E)]]];
    rewrite E; clear E; cbn [persons attendance]; auto.
  - intros r Hr. rewrite map_app. apply in_or_app. left. auto.
  - intros r Hr. apply filter_In in Hr. destruct Hr as [Hr Hne].
    apply negb_true_iff in Hne.
    apply H, in_map_iff in Hr. destruct Hr as (p & Hid & Hp).
    apply in_map_iff. exists p. split; [exact Hid|].
    apply remove_first_keeps; [exact Hp|].
    unfold has_id. unfold of_person in Hne. now rewrite Hid.
  - intros r Hr. apply in_app_iff in Hr. destruct Hr as [Hr|[<-|[]]]; auto.
    now apply (existsb_eqb_In Person.id).
Qed.

(** X7.  Requests served one after the other never leave an orphan: if every
    attendance record refers to a stored Person before a run, so does every
    record after it, whatever the requests are. *)
Theorem serial_runs_keep_references (reqs : list Request) (db : Store) :
  I3 db -> I3 (snd (serve_all reqs db)).
Proof.
  apply serve_all_invariant. apply serve_keeps_I3.
Qed.

Lemma serial_runs_keep_references_witness :
  I3 (snd (serve_all
            (two_days ++ [DELETE_persons_id "id-john"])%list empty_db)).
Proof.
  apply serial_runs_keep_references.
  intros r [].
Defined.

Lemma serve_all_keeps_I2 (reqs : list Request) :
  forall db, forallb one_day_per_mark reqs = true ->
             I2 db -> I2 (snd (serve_all reqs db)).
Proof.
  induction reqs as [|req reqs IH]; intros db Hdays H2; [exact H2|].
  cbn [forallb] in Hdays. apply andb_true_iff in Hdays.
  destruct Hdays as [Hd Hds].
  pose proof (serve_keeps_I2 req db Hd H2) as H2'.
  cbn [serve_all]. destruct (serve req db) as [o db1]. cbn [snd] in *.
  specialize (IH db1 Hds H2').
  now destruct (serve_all reqs db1).
Qed.

Lemma NoDup_person_ids_on_date (d : string) (l : list AttendanceRecord) :
  NoDup (map person_day l) ->
  NoDup (map AttendanceRecord.person_id (filter (on_date d) l)).
Proof.
  induction l as [|x l IH]; cbn; [constructor|].
  intros H; inversion H as [|? ? Hnotin Hnd]; subst.
  destruct (on_date d x) eqn:Ex; cbn; [|auto].
  constructor; [|auto].
  intros Hin. apply Hnotin.
  apply in_map_iff in Hin. destruct Hin as (y & Hid & Hy).
  apply filter_In in Hy. destruct Hy as [Hy Hdy].
  apply in_map_iff. exists y. split; [|exact Hy].
  unfold person_day. unfold on_date in *.
  apply String.eqb_eq in Ex, Hdy. congruence.
Qed.

(** X8.  After any run from the empty database in which each mark reads the
    same local day for its check and for its record, the statistics never
    need their clamp: present_today is at most total_registered and
    absent_today is exactly their difference. *)
Theorem serial_stats_never_clamped (reqs : list Request) (now : datetime) :
  forallb one_day_per_mark reqs = true ->
  exists stats : AttendanceStats,
    run (get_attendance_stats now) (snd (serve_all reqs empty_db)) =
      (Returned stats, snd (serve_all reqs empty_db)) /\
    AttendanceStats.present_today stats <=
      AttendanceStats.total_registered stats /\
    AttendanceStats.absent_today stats =
      AttendanceStats.total_registered stats -
      AttendanceStats.present_today stats.
Proof.
  intros Hdays.
  set (db := snd (serve_all reqs empty_db)).
  assert (H2 : I2 db)
    by (apply serve_all_keeps_I2; [exact Hdays|constructor]).
  assert (H3 : I3 db)
    by (apply serve_all_invariant; [apply serve_keeps_I3|intros r []]).
  eexists. rewrite run_get_attendance_stats.
  split; [reflexivity|]. cbv zeta.
  cbn [AttendanceStats.present_today AttendanceStats.total_registered
       AttendanceStats.absent_today].
  assert (Hle : count (on_date (strftime_Ymd now)) (attendance db)
                <= count any (persons db)).
  { rewrite count_any. unfold count. apply inj_le.
    rewrite <- (length_map AttendanceRecord.person_id).
    rewrite <- (length_map Person.id (persons db)).
    apply NoDup_incl_length.
    - now apply NoDup_person_ids_on_date.
    - intros i Hi. apply in_map_iff in Hi. destruct Hi as (r & <- & Hr).
      apply filter_In in Hr. now apply H3. }
  split; [exact Hle|lia].
Qed.

Lemma serial_stats_never_clamped_witness :
  exists stats : AttendanceStats,
    run (get_attendance_stats local_next_day)
        (snd (serve_all two_days empty_db)) =
      (Returned stats, snd (serve_all two_days empty_db)) /\
    AttendanceStats.present_today stats <=
      AttendanceStats.total_registered stats /\
    AttendanceStats.absent_today stats =
      AttendanceStats.total_registered stats -
      AttendanceStats.present_today stats.
Proof.
  apply (serial_stats_never_clamped two_days local_next_day).
  reflexivity.
Defined.

(** ** Deleting *)

(** X9.  On a database whose person ids are pairwise distinct, a delete that
    succeeded cannot be repeated: the same delete again raises 404 "Person
    not found" and changes nothing. *)
Theorem delete_twice (person_id : string) (db : Store)
    (message : string) (db' : Store) :
  NoDup (person_ids db) ->
  run (delete_person person_id) db = (Returned message, db') ->
  run (delete_person person_id) db' = (Raised PersonNotFound, db').
Proof.
  intros Hnd. rewrite run_delete_person.
  destruct (existsb _ (persons db)); [|discriminate].
  intros H; injection H as _ <-.
  rewrite run_delete_person. cbn [persons].
  now rewrite remove_first_has_id.
Qed.

Lemma delete_twice_witness :
  run (delete_person "id-john")
      (snd (run (delete_person "id-john") db_john_marked)) =
    (Raised PersonNotFound,
     snd (run (delete_person "id-john") db_john_marked)).
Proof.
  apply (delete_twice "id-john" db_john_marked
           "Person and their attendance records deleted successfully").
  - repeat constructor; cbn; intuition discriminate.
  - reflexivity.
Defined.

Lemma find_remove_first_other (i j : string) (l : list Person) :
  j <> i ->
  find (has_id j) (remove_first (has_id i) l) = find (has_id j) l.
Proof.
  intros Hne. induction l as [|p l IH]; cbn; [reflexivity|].
  destruct (has_id i p) eqn:Ei.
  - destruct (has_id j p) eqn:Ej; [|reflexivity].
    unfold has_id in *. apply String.eqb_eq in Ei, Ej. congruence.
  - cbn. now rewrite IH.
Qed.

Lemma filter_of_person_other (i j : string) (l : list AttendanceRecord) :
  j <> i ->
  filter (of_person j) (filter (fun r => negb (of_person i r)) l) =
  filter (of_person j) l.
Proof.
  intros Hne. induction l as [|r l IH]; cbn; [reflexivity|].
  destruct (of_person i r) eqn:Ei; cbn.
  - destruct (of_person j r) eqn:Ej; [|exact IH].
    unfold of_person in *. apply String.eqb_eq in Ei, Ej. congruence.
  - now rewrite IH.
Qed.

(** X10.  A delete that succeeded touches the deleted Person only: for every
    other id, get_person answers as before and the history is the same. *)
Theorem delete_leaves_others (person_id other : string) (db : Store)
    (message : string) (db' : Store) :
  other <> person_id ->
  run (delete_person person_id) db = (Returned message, db') ->
  fst (run (get_person other) db') = fst (run (get_person other) db) /\
  historyFor other db' = historyFor other db.
Proof.
  intros Hne. rewrite run_delete_person.
  destruct (existsb _ (persons db)); [|discriminate].
  intros H; injection H as _ <-.
  unfold historyFor.
  rewrite !run_get_person, !run_get_person_attendance_history.
  cbn [fst persons attendance].
  rewrite find_remove_first_other, filter_of_person_other by exact Hne.
  split; [|reflexivity].
  now destruct (find (has_id other) (persons db)).
Qed.

Lemma delete_leaves_others_witness :
  fst (run (get_person "id-john")
         (snd (run (delete_person "id-sarah") db_john_marked))) =
    fst (run (get_person "id-john") db_john_marked) /\
  historyFor "id-john" (snd (run (delete_person "id-sarah") db_john_marked)) =
    historyFor "id-john" db_john_marked.
Proof.
  apply (delete_leaves_others "id-sarah" "id-john" db_john_marked
           "Person and their attendance records deleted successfully").
  - discriminate.
  - reflexivity.
Defined.

Lemma remove_first_frees {A : Type} (f : A -> string) (q : A -> bool)
    (l : list A) (p : A) :
  NoDup (map f l) -> find q l = Some p ->
  ~ In (f p) (map f (remove_first q l)).
Proof.
  induction l as [|x l IH]; cbn; [discriminate|].
  intros Hnd; inversion Hnd as [|? ? Hx Hnd']; subst.
  destruct (q x).
  - intros H; injection H as <-. exact Hx.
  - intros Hfind. cbn. intros [E|Hin].
    + apply Hx. rewrite E. apply in_map. now apply find_some in Hfind.
    + now apply (IH Hnd' Hfind).
Qed.

(** X11.  Deleting a Person frees its employee id: on a database where
    employee ids are pairwise distinct, a register with the employee id of a
    stored Person is refused before that Person is deleted and succeeds
    right after. *)
Theorem delete_frees_employee_id (person_id : string) (db : Store)
    (p : Person) (message : string) (db' : Store)
    (uuid4 : string) (utcnow : datetime) (person_data : PersonCreate) :
  I1 db ->
  find (has_id person_id) (persons db) = Some p ->
  PersonCreate.employee_id person_data = Person.employee_id p ->
  run (delete_person person_id) db = (Returned message, db') ->
  run (create_person uuid4 utcnow person_data) db =
    (Raised DuplicateEmployeeId, db) /\
  run (create_person uuid4 utcnow person_data) db' =
    (Returned (new_Person uuid4 utcnow person_data),
     mkStore (persons db' ++
              [bson_person (new_Person uuid4 utcnow person_data)])%list
             (attendance db')).
Proof.
  intros H1 Hfind He. rewrite run_delete_person.
  destruct (existsb _ (persons db)); [|discriminate].
  intros H; injection H as _ <-.
  rewrite !run_create_person. cbn [persons attendance]. split.
  - assert (E : existsb (has_employee_id (PersonCreate.employee_id person_data))
                  (persons db) = true).
    { apply (existsb_eqb_In Person.employee_id). rewrite He.
      apply in_map. now apply find_some in Hfind. }
    now rewrite E.
  - assert (E : existsb (has_employee_id (PersonCreate.employee_id person_data))
                  (remove_first (has_id person_id) (persons db)) = false).
    { apply (existsb_eqb_not_In Person.employee_id). rewrite He.
      now apply remove_first_frees. }
    now rewrite E.
Qed.

Lemma delete_frees_employee_id_witness :
  run (create_person "id-john-2" utc_next_day john) db_john_marked =
    (Raised DuplicateEmployeeId, db_john_marked) /\
  run (create_person "id-john-2" utc_next_day john)
      (snd (run (delete_person "id-john") db_john_marked)) =
    (Returned (new_Person "id-john-2" utc_next_day john),
     mkStore
       (persons (snd (run (delete_person "id-john") db_john_marked))
        ++ [bson_person (new_Person "id-john-2" utc_next_day john)])%list
       (attendance (snd (run (delete_person "id-john") db_john_marked)))).
Proof.
  apply (delete_frees_employee_id "id-john" db_john_marked
           (new_Person "id-john" utc_2330 john)
           "Person and their attendance records deleted successfully").
  - repeat constructor; cbn; intuition discriminate.
  - reflexivity.
  - reflexivity.
  - reflexivity.
Defined.

(** ** What a request never removes *)

(** X12.  Whatever request is served, a stored attendance record stays
    stored, unchanged, unless the request is the delete of the record's
    person; a stored Person stays stored unless the request is the delete
    of that Person's id; and a request that only reads leaves the whole
    database as it was. *)
Theorem stored_until_deleted (req : Request) (db : Store) :
  (forall r, In r (attendance db) ->
     In r (attendance (snd (serve req db))) \/
     req = DELETE_persons_id (AttendanceRecord.person_id r)) /\
  (forall p, In p (persons db) ->
     In p (persons (snd (serve req db))) \/
     req = DELETE_persons_id (Person.id p)) /\
  (reads_only req = true -> snd (serve req db) = db).
Proof.
  split; [|split; [|apply serve_reads_only]].
  - intros r Hr.
    destruct (serve_cases req db)
      as [E|[(u & t & d & _ & _ & E)|[(i & -> & _ & E)
         |(n & u & t & n' & d & _ & _ & _ & E)]]];
      rewrite E; clear E; cbn [attendance]; auto.
    + destruct (of_person i r) eqn:Ei.
      * right. unfold of_person in Ei. apply String.eqb_eq in Ei. now rewrite Ei.
      * left. apply filter_In. now rewrite Ei.
    + left. apply in_or_app. now left.
  - intros p Hp.
    destruct (serve_cases req db)
      as [E|[(u & t & d & _ & _ & E)|[(i & -> & _ & E)
         |(n & u & t & n' & d & _ & _ & _ & E)]]];
      rewrite E; clear E; cbn [persons]; auto.
    + left. apply in_or_app. now left.
    + destruct (has_id i p) eqn:Ei.
      * right. unfold has_id in Ei. apply String.eqb_eq in Ei. now rewrite Ei.
      * left. now apply remove_first_keeps.
Qed.

(** ** Callers racing *)

Lemma no_record_after_cascade (i d : string) (l : list AttendanceRecord) :
  existsb (of_person_on_date i d)
    (filter (fun r => negb (of_person i r)) l) = false.
Proof.
  induction l as [|r l IH]; cbn; [reflexivity|].
  destruct (of_person i r) eqn:E; cbn; [exact IH|].
  unfold of_person_on_date at 1. now rewrite E, IH.
Qed.

(** X13.  A mark that looked its Person up before a delete of that Person
    began, and makes its two other storage calls after the delete has made
    both of its own, succeeds all the same: both callers get a success, the
    Person is gone (person ids being pairwise distinct) and the new record
    is stored with no Person to refer to. *)
Theorem mark_racing_delete_leaves_orphan
    (now_today : datetime) (uuid4 : string) (utcnow now_date : datetime)
    (attendance_data : AttendanceCreate) (db : Store) :
  NoDup (person_ids db) ->
  In (AttendanceCreate.person_id attendance_data) (person_ids db) ->
  let final :=
    interleave mark_around_delete
      (delete_person (AttendanceCreate.person_id attendance_data))
      (mark_attendance now_today uuid4 utcnow now_date attendance_data) db in
  let record := new_AttendanceRecord uuid4 utcnow now_date attendance_data in
  outcome_of (fst (fst final)) =
    Some (Returned
      "Person and their attendance records deleted successfully"%string) /\
  outcome_of (snd (fst final)) = Some (Returned record) /\
  In (bson_record record) (attendance (snd final)) /\
  ~ In (AttendanceRecord.person_id record) (person_ids (snd final)).
Proof.
  intros Hnd Hin. cbv zeta.
  destruct (find_has_id_In _ _ Hin) as (p0 & Efind & _).
  apply (existsb_eqb_In Person.id) in Hin.
  change (existsb (has_id (AttendanceCreate.person_id attendance_data))
            (persons db) = true) in Hin.
  unfold mark_around_delete, delete_person, mark_attendance.
  cbn [interleave step try_except bind await exec fst snd persons attendance].
  rewrite count_zero, Hin, Efind.
  cbn [negb truthy interleave step try_except bind await exec fst snd
       persons attendance].
  rewrite truthy_find, no_record_after_cascade.
  cbn [interleave step try_except bind await exec fst snd persons attendance
       outcome_of].
  repeat split.
  - apply in_or_app. right. now left.
  - apply (existsb_eqb_not_In Person.id).
    now apply remove_first_has_id.
Qed.

Lemma mark_racing_delete_leaves_orphan_witness :
  let final :=
    interleave mark_around_delete
      (delete_person (AttendanceCreate.person_id (seen "id-john" john)))
      (mark_attendance local_0500 "id-rec-1" utc_2330 local_0500
         (seen "id-john" john)) db_john in
  let record :=
    new_AttendanceRecord "id-rec-1" utc_2330 local_0500 (seen "id-john" john) in
  outcome_of (fst (fst final)) =
    Some (Returned
      "Person and their attendance records deleted successfully"%string) /\
  outcome_of (snd (fst final)) = Some (Returned record) /\
  In (bson_record record) (attendance (snd final)) /\
  ~ In (AttendanceRecord.person_id record) (person_ids (snd final)).
Proof.
  apply (mark_racing_delete_leaves_orphan local_0500 "id-rec-1" utc_2330
           local_0500 (seen "id-john" john) db_john).
  - repeat constructor. intros [].
  - now left.
Defined.

(** X14.  Two registrations of one employee id that no stored Person has,
    each looking for it before either inserts, both succeed, and the
    database then holds both Persons under that employee id. *)
Theorem registrations_racing_both_succeed
    (uuid4 uuid4' : string) (utcnow utcnow' : datetime)
    (person_data person_data' : PersonCreate) (db : Store) :
  PersonCreate.employee_id person_data' = PersonCreate.employee_id person_data ->
  ~ In (PersonCreate.employee_id person_data) (employee_ids db) ->
  let final :=
    interleave check_check_insert_insert
      (create_person uuid4 utcnow person_data)
      (create_person uuid4' utcnow' person_data') db in
  outcome_of (fst (fst final)) =
    Some (Returned (new_Person uuid4 utcnow person_data)) /\
  outcome_of (snd (fst final)) =
    Some (Returned (new_Person uuid4' utcnow' person_data')) /\
  persons (snd final) =
    (persons db ++ [bson_person (new_Person uuid4 utcnow person_data);
                    bson_person (new_Person uuid4' utcnow' person_data')])%list /\
  attendance (snd final) = attendance db.
Proof.
  intros Hsame Hfresh. cbv zeta.
  apply (existsb_eqb_not_In Person.employee_id) in Hfresh.
  change (existsb (has_employee_id (PersonCreate.employee_id person_data))
            (persons db) = false) in Hfresh.
  unfold check_check_insert_insert, create_person.
  cbn [interleave step try_except bind await exec fst snd persons attendance].
  rewrite Hsame, truthy_find, Hfresh.
  cbn [interleave step try_except bind await exec fst snd persons attendance
       outcome_of].
  repeat split. now rewrite <- app_assoc.
Qed.

Lemma registrations_racing_both_succeed_witness :
  let final :=
    interleave check_check_insert_insert
      (create_person "id-1" utc_2330 sarah)
      (create_person "id-2" utc_2331 sarah) db_john in
  outcome_of (fst (fst final)) =
    Some (Returned (new_Person "id-1" utc_2330 sarah)) /\
  outcome_of (snd (fst final)) =
    Some (Returned (new_Person "id-2" utc_2331 sarah)) /\
  persons (snd final) =
    (persons db_john ++ [bson_person (new_Person "id-1" utc_2330 sarah);
                         bson_person (new_Person "id-2" utc_2331 sarah)])%list /\
  attendance (snd final) = attendance db_john.
Proof.
  apply (registrations_racing_both_succeed "id-1" "id-2" utc_2330 utc_2331
           sarah sarah db_john).
  - reflexivity.
  - cbn. intros [H|[]]. discriminate H.
Defined.

(** ** How a route can fail *)

Lemma runs_bind_Return {A B : Type} (m : Prog A) (g : A -> B)
    (db : Store) (o : Outcome B) (db' : Store) :
  runs (bind m (fun x => Return (g x))) db o db' ->
  exists o0, runs m db o0 db' /\ o = map_outcome g o0.
Proof.
  revert db; induction m as [a|e|R op k IH]; intros db; cbn.
  - intros [-> ->]. now exists (Returned a).
  - intros [-> ->]. now exists (Raised e).
  - intros [H|(s & H)].
    + destruct (IH _ _ H) as (o0 & H0 & E). exists o0. auto.
    + destruct (IH _ _ H) as (o0 & H0 & E). exists o0. split; [|exact E].
      right. now exists s.
Qed.

Ltac run_cases :=
  cbn [runs try_except bind await exec fst snd reraise_or_500 always_500
       str_of negb];
  repeat (match goal with
          | |- context [if ?b then _ else _] => destruct b
          | |- context [match ?x with Some _ => _ | None => _ end] => destruct x
          end;
          cbn [runs try_except bind await exec fst snd reraise_or_500
               always_500 str_of negb]).

Ltac returned_or_http :=
  let H := fresh "H" in
  intros H;
  repeat match goal with
         | H : _ \/ _ |- _ => destruct H as [H|H]
         | H : exists _, _ |- _ => destruct H as (? & H)
         | H : _ /\ _ |- _ => destruct H as [-> ->]
         end;
  cbn [map_outcome reads_only];
  (split;
   [ first [ left; eexists; reflexivity
           | right; eexists _, _; split; [reflexivity|cbn; auto 10] ]
   | first [ discriminate | reflexivity ] ]).

(** X15.  Whatever the storage does, a route either returns or raises an
    HTTPException, never another exception, and the status is one the route
    is known for: 400 or 500 for a registration, 404 or 500 for get_person
    and for a delete, 404, 400 or 500 for a mark, and only 500 for the five
    routes that list or count.  A route that only reads leaves the database
    as it was also when it fails. *)
Theorem failures_are_http_errors (req : Request) (db : Store)
    (o : Outcome Body) (db' : Store) :
  runs (route req) db o db' ->
  ((exists b, o = Returned b) \/
   (exists code detail, o = Raised (HTTPException code detail) /\
                        In code (may_raise req))) /\
  (reads_only req = true -> db' = db).
Proof.
  intros H. unfold route in H.
  destruct req; apply runs_bind_Return in H; destruct H as (o0 & H & ->);
    revert H.
  - unfold create_person. run_cases; returned_or_http.
  - unfold get_all_persons. run_cases; returned_or_http.
  - unfold get_person. run_cases; returned_or_http.
  - unfold delete_person. run_cases; returned_or_http.
  - unfold mark_attendance. run_cases; returned_or_http.
  - unfold get_today_attendance. run_cases; returned_or_http.
  - unfold get_attendance_stats. run_cases; returned_or_http.
  - unfold get_person_attendance_history. run_cases; returned_or_http.
  - unfold get_attendance_by_date. run_cases; returned_or_http.
Qed.

Lemma failures_are_http_errors_witness :
  ((exists b : Body,
      Raised (HTTPException 500 "Error fetching stats: timed out")
      = Returned b) \/
   (exists code detail,
      @Raised Body (HTTPException 500 "Error fetching stats: timed out")
      = Raised (HTTPException code detail) /\
      In code (may_raise (GET_attendance_stats local_0501)))) /\
  (reads_only (GET_attendance_stats local_0501) = true ->
   db_john_marked = db_john_marked).
Proof.
  apply (failures_are_http_errors (GET_attendance_stats local_0501)
           db_john_marked
           (Raised (HTTPException 500 "Error fetching stats: timed out"))
           db_john_marked).
  cbn [route get_attendance_stats runs try_except bind await exec fst snd].
  left. right. exists "timed out"%string. split; reflexivity.
Defined.

(** ** Statistics after a write *)

Lemma count_app_single {A : Type} (q : A -> bool) (l : list A) (x : A) :
  count q (l ++ [x])%list = count q l + (if q x then 1 else 0).
Proof.
  unfold count. rewrite filter_app, length_app. cbn.
  destruct (q x); cbn [List.length]; lia.
Qed.

(** X16.  A mark that succeeded leaves total_registered as it was and raises
    present_today by one exactly when the record's date is the day key the
    statistics are asked for; a record dated another day does not count. *)
Theorem mark_then_stats
    (now_today : datetime) (uuid4 : string) (utcnow now_date : datetime)
    (attendance_data : AttendanceCreate) (db : Store)
    (r : AttendanceRecord) (db' : Store) (now : datetime) :
  run (mark_attendance now_today uuid4 utcnow now_date attendance_data) db =
    (Returned r, db') ->
  exists before after : AttendanceStats,
    run (get_attendance_stats now) db = (Returned before, db) /\
    run (get_attendance_stats now) db' = (Returned after, db') /\
    AttendanceStats.total_registered after =
      AttendanceStats.total_registered before /\
    AttendanceStats.present_today after =
      AttendanceStats.present_today before +
      (if String.eqb (AttendanceRecord.date r) (strftime_Ymd now)
       then 1 else 0).
Proof.
  rewrite run_mark_attendance.
  destruct (negb _); [discriminate|].
  destruct (existsb _ (attendance db)); [discriminate|].
  intros H; injection H as <- <-.
  eexists. eexists. rewrite !run_get_attendance_stats.
  split; [reflexivity|]. split; [reflexivity|].
  cbv zeta.
  cbn [AttendanceStats.total_registered AttendanceStats.present_today
       persons attendance].
  split; [reflexivity|].
  rewrite count_app_single. reflexivity.
Qed.

Lemma mark_then_stats_witness :
  exists before after : AttendanceStats,
    run (get_attendance_stats local_0501) db_john = (Returned before, db_john) /\
    run (get_attendance_stats local_0501)
        (snd (run (mark_attendance local_0500 "id-rec-1" utc_2330 local_0500
                     (seen "id-john" john)) db_john)) =
      (Returned after,
       snd (run (mark_attendance local_0500 "id-rec-1" utc_2330 local_0500
                   (seen "id-john" john)) db_john)) /\
    AttendanceStats.total_registered after =
      AttendanceStats.total_registered before /\
    AttendanceStats.present_today after =
      AttendanceStats.present_today before +
      (if String.eqb
            (AttendanceRecord.date
               (new_AttendanceRecord "id-rec-1" utc_2330 local_0500
                  (seen "id-john" john)))
            (strftime_Ymd local_0501)
       then 1 else 0).
Proof.
  apply (mark_then_stats local_0500 "id-rec-1" utc_2330 local_0500
           (seen "id-john" john) db_john).
  reflexivity.
Defined.

Lemma length_remove_first {A : Type} (q : A -> bool) (l : list A) :
  existsb q l = true ->
  Z.of_nat (List.length (remove_first q l)) = Z.of_nat (List.length l) - 1.
Proof.
  induction l as [|x l IH]; cbn [existsb remove_first]; [discriminate|].
  destruct (q x); cbn [orb List.length].
  - intros _. lia.
  - intros H. specialize (IH H). lia.
Qed.

Lemma count_after_cascade (i d : string) (l : list AttendanceRecord) :
  count (on_date d) (filter (fun r => negb (of_person i r)) l) =
  count (on_date d) l - count (of_person_on_date i d) l.
Proof.
  unfold count.
  induction l as [|r l IH]; cbn [filter List.length]; [reflexivity|].
  unfold of_person_on_date at 1.
  destruct (of_person i r) eqn:Ei; cbn [negb andb filter];
    destruct (on_date d r) eqn:Ed; cbn [List.length]; lia.
Qed.

(** X17.  A delete that succeeded lowers total_registered by one and
    present_today by the number of records the deleted person had for the
    day key the statistics are asked for. *)
Theorem delete_then_stats (person_id : string) (db : Store)
    (message : string) (db' : Store) (now : datetime) :
  run (delete_person person_id) db = (Returned message, db') ->
  exists before after : AttendanceStats,
    run (get_attendance_stats now) db = (Returned before, db) /\
    run (get_attendance_stats now) db' = (Returned after, db') /\
    AttendanceStats.total_registered after =
      AttendanceStats.total_registered before - 1 /\
    AttendanceStats.present_today after =
      AttendanceStats.present_today before -
      count (of_person_on_date person_id (strftime_Ymd now)) (attendance db).
Proof.
  rewrite run_delete_person.
  destruct (existsb _ (persons db)) eqn:E; [|discriminate].
  intros H; injection H as _ <-.
  eexists. eexists. rewrite !run_get_attendance_stats.
  split; [reflexivity|]. split; [reflexivity|].
  cbv zeta.
  cbn [AttendanceStats.total_registered AttendanceStats.present_today
       persons attendance].
  split.
  - rewrite !count_any. now apply length_remove_first.
  - apply count_after_cascade.
Qed.

Lemma delete_then_stats_witness :
  exists before after : AttendanceStats,
    run (get_attendance_stats local_0501) db_john_marked =
      (Returned before, db_john_marked) /\
    run (get_attendance_stats local_0501)
        (snd (run (delete_person "id-john") db_john_marked)) =
      (Returned after, snd (run (delete_person "id-john") db_john_marked)) /\
    AttendanceStats.total_registered after =
      AttendanceStats.total_registered before - 1 /\
    AttendanceStats.present_today after =
      AttendanceStats.present_today before -
      count (of_person_on_date "id-john" (strftime_Ymd local_0501))
        (attendance db_john_marked).
Proof.
  apply (delete_then_stats "id-john" db_john_marked
           "Person and their attendance records deleted successfully").
  reflexivity.
Defined.
